(** * Calendar synchronisation of parallel-task-web

    A shallow embedding of the calendar bridge of the application:
    - [src/unnamed/part_003] (imported as [@/lib/google-calendar]): the
      mapping of a task to a calendar event and the thin wrappers around the
      calendar service;
    - [src/src/app/api/calendar/sync/route.ts]: the credential helper
      [getValidTokens] and the two request handlers [POST] and [DELETE].

    The handlers are asynchronous functions that talk to three collaborators:
    the relational store, the OAuth token endpoint and the calendar service.
    Every awaited call is an operation of a small free monad [Prog]; one
    interpreter runs a handler to completion, another one interleaves two
    handlers at their awaited calls. *)

From Stdlib Require Import ZArith Lia String Ascii List Bool.
From stdpp Require Import base option gmap strings list.

Local Open Scope string_scope.
Local Open Scope Z_scope.

(** ** JavaScript values used by the code *)

Module JS.

(** Truthiness of a string: only the empty string is falsy. *)
Definition truthy_string (s : string) : bool :=
  match s with
  | EmptyString => false
  | String _ _ => true
  end.

(** Truthiness of an optional string ([null]/[undefined] are falsy). *)
Definition truthy (o : option string) : bool :=
  match o with
  | None => false
  | Some s => truthy_string s
  end.

(** Truthiness of an optional number ([null]/[undefined]/[0] are falsy). *)
Definition truthy_number (o : option Z) : bool :=
  match o with
  | None => false
  | Some n => negb (n =? 0)
  end.

(** [s.includes(c)] for a one-character needle. *)
Fixpoint includes_char (c : ascii) (s : string) : bool :=
  match s with
  | EmptyString => false
  | String a s' => if Ascii.eqb a c then true else includes_char c s'
  end.

(** [s.split(c)[0]] for a one-character separator: the text before the
    first separator, the whole string when there is none. *)
Fixpoint split_head (c : ascii) (s : string) : string :=
  match s with
  | EmptyString => EmptyString
  | String a s' => if Ascii.eqb a c then EmptyString else String a (split_head c s')
  end.

(** [s.startsWith(p)], returning the rest of [s] after [p]. *)
Fixpoint strip_prefix (p s : string) : option string :=
  match p, s with
  | EmptyString, _ => Some s
  | String a p', String b s' => if Ascii.eqb a b then strip_prefix p' s' else None
  | String _ _, EmptyString => None
  end.

(** [s.replace(pat, rep)] with a string pattern: the first occurrence
    only ([rep] holds no [$] here, so it is inserted as it is). *)
Fixpoint replace_first (pat rep s : string) : string :=
  match strip_prefix pat s with
  | Some rest => rep +:+ rest
  | None =>
      match s with
      | EmptyString => EmptyString
      | String a s' => String a (replace_first pat rep s')
      end
  end.

End JS.

(** ** The [Date] object

    A time value is a number of milliseconds since the epoch; an invalid
    date is [None].  Of the date-time string format only the shape built by
    the mapper, [YYYY-MM-DDTHH:mm:ss] without an offset, is recognised; as
    ECMAScript prescribes for a date-time form without offset, it is read
    as local time of the process.  As in Node, a day up to 31 is taken in
    any month and runs over into the next one, and the hour 24 is taken
    with zero minutes and seconds.  Anything else is an invalid date. *)

Module JSDate.

Definition msPerMinute : Z := 60000.
Definition msPerHour : Z := 3600000.
Definition msPerDay : Z := 86400000.

(** Day number (days since 1970-01-01) of a date of the proleptic
    Gregorian calendar. *)
Definition days_from_civil (y m d : Z) : Z :=
  let y' := if m <=? 2 then y - 1 else y in
  let era := y' / 400 in
  let yoe := y' - era * 400 in
  let mp := (m + 9) mod 12 in
  let doy := (153 * mp + 2) / 5 + d - 1 in
  let doe := yoe * 365 + yoe / 4 - yoe / 100 + doy in
  era * 146097 + doe - 719468.

(** The date of a day number: year, month, day. *)
Definition civil_from_days (z : Z) : Z * Z * Z :=
  let z' := z + 719468 in
  let era := z' / 146097 in
  let doe := z' - era * 146097 in
  let yoe := (doe - doe / 1460 + doe / 36524 - doe / 146096) / 365 in
  let doy := doe - (365 * yoe + yoe / 4 - yoe / 100) in
  let mp := (5 * doy + 2) / 153 in
  let d := doy - (153 * mp + 2) / 5 + 1 in
  let m := if mp <? 10 then mp + 3 else mp - 9 in
  let y := yoe + era * 400 in
  (if m <=? 2 then y + 1 else y, m, d).

(** 0 = Sunday ... 6 = Saturday; 1970-01-01 was a Thursday. *)
Definition week_day (day : Z) : Z := (day + 4) mod 7.

Definition digit (c : ascii) : option Z :=
  let n := Z.of_N (N_of_ascii c) in
  if (48 <=? n) && (n <=? 57) then Some (n - 48) else None.

Definition digits2 (a b : ascii) : option Z :=
  x ← digit a; y ← digit b; Some (10 * x + y).

Definition digits4 (a b c d : ascii) : option Z :=
  x ← digits2 a b; y ← digits2 c d; Some (100 * x + y).

(** The wall-clock reading of [YYYY-MM-DDTHH:mm:ss], as milliseconds since
    the epoch of that reading taken as UTC. *)
Definition parse_wall_clock (s : string) : option Z :=
  match s with
  | String y1 (String y2 (String y3 (String y4 (String "-"
    (String m1 (String m2 (String "-" (String d1 (String d2 (String "T"
    (String h1 (String h2 (String ":" (String i1 (String i2 (String ":"
    (String s1 (String s2 EmptyString)))))))))))))))))) =>
      y ← digits4 y1 y2 y3 y4;
      m ← digits2 m1 m2;
      d ← digits2 d1 d2;
      h ← digits2 h1 h2;
      i ← digits2 i1 i2;
      sec ← digits2 s1 s2;
      if (1 <=? m) && (m <=? 12) && (1 <=? d) && (d <=? 31)
         && ((h <=? 23) || ((h =? 24) && (i =? 0) && (sec =? 0)))
         && (i <=? 59) && (sec <=? 59)
      then Some (days_from_civil y m d * msPerDay
                 + h * msPerHour + i * msPerMinute + sec * 1000)
      else None
  | _ => None
  end.

(** [TimeClip]: a time value is at most 8.64e15 ms away from the epoch. *)
Definition time_clip (t : Z) : option Z :=
  if Z.abs t <=? 8640000000000000 then Some t else None.

(** [new Date(s)] for a date-time string without offset.  [tza] is the
    offset of the process's local time zone, in milliseconds east of
    UTC, as a function of the local wall-clock reading. *)
Definition of_string (tza : Z -> Z) (s : string) : option Z :=
  l ← parse_wall_clock s; time_clip (l - tza l).

(** [new Date(d.getTime() + ms)]: an invalid date stays invalid. *)
Definition plus (d : option Z) (ms : Z) : option Z :=
  t ← d; time_clip (t + ms).

Definition digit_char (n : Z) : ascii :=
  ascii_of_N (Z.to_N (48 + n mod 10)).

(** [n] written with [w] decimal digits, padded with zeros. *)
Fixpoint pad (w : nat) (n : Z) : string :=
  match w with
  | O => EmptyString
  | S w' => pad w' (n / 10) +:+ String (digit_char n) EmptyString
  end.

Definition year_string (y : Z) : string :=
  if (0 <=? y) && (y <=? 9999) then pad 4 y
  else if y <? 0 then "-" +:+ pad 6 (- y)
  else "+" +:+ pad 6 y.

(** [new Date(t).toISOString()] of a valid time value. *)
Definition iso_string (t : Z) : string :=
  let day := t / msPerDay in
  let ms := t mod msPerDay in
  let '(y, m, d) := civil_from_days day in
  year_string y +:+ "-" +:+ pad 2 m +:+ "-" +:+ pad 2 d +:+ "T"
    +:+ pad 2 (ms / msPerHour) +:+ ":" +:+ pad 2 (ms / msPerMinute mod 60)
    +:+ ":" +:+ pad 2 (ms / 1000 mod 60) +:+ "." +:+ pad 3 (ms mod 1000) +:+ "Z".

(** [d.toISOString()]: [None] stands for the [RangeError] thrown on an
    invalid date. *)
Definition toISOString (d : option Z) : option string :=
  t ← d; t' ← time_clip t; Some (iso_string t').

(** The zone [Europe/Paris] of the calendar service: the offset in
    milliseconds at the instant [t].  Summer time runs from the last
    Sunday of March, 01:00 UTC, to the last Sunday of October, 01:00 UTC. *)
Definition last_sunday (y m : Z) : Z :=
  let last := days_from_civil y m 31 in last - week_day last.

Definition Europe_Paris (t : Z) : Z :=
  let '(y, _, _) := civil_from_days (t / msPerDay) in
  let dst_start := last_sunday y 3 * msPerDay + msPerHour in
  let dst_end := last_sunday y 10 * msPerDay + msPerHour in
  if (dst_start <=? t) && (t <? dst_end) then 2 * msPerHour else msPerHour.

(** The wall-clock reading, in a zone, of the instant [t]. *)
Definition wall_clock (zone : Z -> Z) (t : Z) : Z := t + zone t.

Definition UTC : Z -> Z := fun _ => 0.

End JSDate.

(** ** Data model *)

(** A row of [google_oauth_tokens]; [user_id] is unique in the table.
    Timestamps are kept as time values (the column is a timestamp, written
    with [toISOString] and read back with [new Date]). *)
Record TokenRow := {
  user_id : string;
  access_token : string;
  refresh_token : string;
  expires_at : Z;
  scope : string;
  token_type : string;
  updated_at : option Z;
}.

(** A row of [tasks], with the columns the bridge reads or writes. *)
Record TaskRow := {
  id : string;
  title : string;
  description : option string;
  status : string;
  priority : Z;
  due_date : option string;
  due_time : option string;
  duration : option Z;
  google_calendar_event_id : option string;
  task_updated_at : option Z;
}.

(** A row of [calendar_sync_log]. *)
Record LogRow := {
  log_user_id : string;
  log_task_id : option string;
  log_event_id : option string;
  log_action : string;
  log_status : string;
}.

(** [TaskEvent] of the library. *)
Record TaskEvent := {
  te_id : option string;
  te_title : string;
  te_description : option string;
  dueDate : option string;
  dueTime : option string;
  te_duration : option Z;
  te_status : string;
  te_priority : Z;
}.

(** [calendar_v3.Schema$EventDateTime]: a timestamp with its zone label, or
    an all-day date. *)
Inductive EventDateTime :=
| Timed (dateTime : string) (timeZone : string)
| AllDay (date : string).

(** [calendar_v3.Schema$Event], the request body of insert and patch. *)
Record Event := {
  summary : string;
  ev_description : string;
  ev_start : option EventDateTime;
  ev_end : option EventDateTime;
  colorId : string;
  ev_status : string;
}.

(** What the refresh grant answers: [credentials] of
    [oauth2Client.refreshAccessToken()]. *)
Record Credentials := {
  cred_access_token : option string;
  cred_refresh_token : option string;
  cred_expiry_date : option Z;
}.

(** The result of [refreshAccessToken] of the library. *)
Record NewTokens := {
  new_access_token : string;
  expiry_date : Z;
}.

(** Thrown values. *)
Inductive Exn :=
| JsError (msg : string)          (* [new Error(msg)] *)
| RangeError (msg : string)       (* [toISOString] of an invalid date *)
| SyntaxError (msg : string)      (* [request.json()] of a malformed body *)
| HttpError (code : Z) (msg : string). (* a failed call of an external service *)

(** [String(error)]. *)
Definition exn_string (e : Exn) : string :=
  match e with
  | JsError m => "Error: " +:+ m
  | RangeError m => "RangeError: " +:+ m
  | SyntaxError m => "SyntaxError: " +:+ m
  | HttpError _ m => "Error: " +:+ m
  end.

Definition invalid_time : Exn := RangeError "Invalid time value".
Definition not_found : Exn := HttpError 404 "Not Found".

(** Calls received by the calendar service, oldest first. *)
Inductive CalendarCall :=
| CallInsert (ev : Event)
| CallPatch (eventId : string) (ev : Event)
| CallDelete (eventId : string).

(** The durable state shared by all requests: the three tables, the events
    of the user's primary calendar and the history of calendar calls. *)
Record World := {
  tokens : gmap string TokenRow;
  tasks : gmap string TaskRow;
  sync_log : list LogRow;
  events : gmap string Event;
  calls : list CalendarCall;
}.

(** What the outside answers during one request. *)
Inductive InsertReply :=
| InsertFails (e : Exn)
| InsertReturns (id : option string).

Record Env := {
  getUser : string -> option string;        (* [supabase.auth.getUser(token)] *)
  anon_visible : string -> bool;            (* row visibility for the anon client *)
  refresh_reply : string -> Exn + Credentials; (* the refresh grant *)
  insert_reply : InsertReply;               (* [events.insert] *)
  patch_fault : option Exn;                 (* a failure of [events.patch] *)
  delete_fault : option Exn;                (* a failure of [events.delete] *)
}.

(** Ambient values of the process serving a request: the clock reading and
    the local time zone adjustment. *)
Record Runtime := {
  now : Z;
  local_tza : Z -> Z;
}.

(** ** Row updates *)

Definition set_token_refresh (access : string) (expires updated : Z) (r : TokenRow) : TokenRow :=
  {| user_id := r.(user_id); access_token := access;
     refresh_token := r.(refresh_token); expires_at := expires;
     scope := r.(scope); token_type := r.(token_type);
     updated_at := Some updated |}.

Definition set_task_event (eid : option string) (updated : Z) (r : TaskRow) : TaskRow :=
  {| id := r.(id); title := r.(title); description := r.(description);
     status := r.(status); priority := r.(priority); due_date := r.(due_date);
     due_time := r.(due_time); duration := r.(duration);
     google_calendar_event_id := eid; task_updated_at := Some updated |}.

(** [{ ...tokens, access_token }]. *)
Definition with_access_token (access : string) (r : TokenRow) : TokenRow :=
  {| user_id := r.(user_id); access_token := access;
     refresh_token := r.(refresh_token); expires_at := r.(expires_at);
     scope := r.(scope); token_type := r.(token_type);
     updated_at := r.(updated_at) |}.

(** A patch replaces the fields present in the body; [start] and [end] are
    left out of the body when undefined. *)
Definition apply_patch (body old : Event) : Event :=
  {| summary := body.(summary); ev_description := body.(ev_description);
     ev_start := match body.(ev_start) with Some s => Some s | None => old.(ev_start) end;
     ev_end := match body.(ev_end) with Some s => Some s | None => old.(ev_end) end;
     colorId := body.(colorId); ev_status := body.(ev_status) |}.

Definition with_tokens (f : gmap string TokenRow -> gmap string TokenRow) (w : World) : World :=
  {| tokens := f w.(tokens); tasks := w.(tasks); sync_log := w.(sync_log);
     events := w.(events); calls := w.(calls) |}.

Definition with_tasks (f : gmap string TaskRow -> gmap string TaskRow) (w : World) : World :=
  {| tokens := w.(tokens); tasks := f w.(tasks); sync_log := w.(sync_log);
     events := w.(events); calls := w.(calls) |}.

Definition with_log (row : LogRow) (w : World) : World :=
  {| tokens := w.(tokens); tasks := w.(tasks); sync_log := w.(sync_log) ++ [row];
     events := w.(events); calls := w.(calls) |}.

Definition with_call (c : CalendarCall) (f : gmap string Event -> gmap string Event)
    (w : World) : World :=
  {| tokens := w.(tokens); tasks := w.(tasks); sync_log := w.(sync_log);
     events := f w.(events); calls := w.(calls) ++ [c] |}.

(** ** Awaited operations *)

Inductive Op : Type -> Type :=
| AuthGetUser (token : string) : Op (option string)
| TokensSelect (userId : string) : Op (option TokenRow)
| TokensUpdate (userId access : string) (expires updated : Z) : Op unit
| TasksSelect (taskId : string) : Op (option TaskRow)
| TasksSelectAnon (taskId : string) : Op (option TaskRow)
| TasksUpdateEvent (taskId : string) (eid : option string) (updated : Z) : Op unit
| LogInsert (row : LogRow) : Op unit
| OAuthRefresh (refreshToken : string) : Op (Exn + Credentials)
| EventsInsert (ev : Event) : Op (Exn + option string)
| EventsPatch (eventId : string) (ev : Event) : Op (Exn + unit)
| EventsDelete (eventId : string) : Op (Exn + unit).

(** One operation against the world.  The store applies every write it is
    sent ([update ... eq(key)] changes the row with that key, if there is
    one); the calendar service answers not-found for an event it does not
    hold. *)
Definition exec {R} (env : Env) (op : Op R) (w : World) : R * World :=
  match op in Op R return R * World with
  | AuthGetUser token => (env.(getUser) token, w)
  | TokensSelect userId => (w.(tokens) !! userId, w)
  | TokensUpdate userId access expires updated =>
      (tt, with_tokens (alter (set_token_refresh access expires updated) userId) w)
  | TasksSelect taskId => (w.(tasks) !! taskId, w)
  | TasksSelectAnon taskId =>
      (if env.(anon_visible) taskId then w.(tasks) !! taskId else None, w)
  | TasksUpdateEvent taskId eid updated =>
      (tt, with_tasks (alter (set_task_event eid updated) taskId) w)
  | LogInsert row => (tt, with_log row w)
  | OAuthRefresh refreshToken => (env.(refresh_reply) refreshToken, w)
  | EventsInsert ev =>
      match env.(insert_reply) with
      | InsertFails e => (inl e, with_call (CallInsert ev) (fun m => m) w)
      | InsertReturns None => (inr None, with_call (CallInsert ev) (fun m => m) w)
      | InsertReturns (Some i) => (inr (Some i), with_call (CallInsert ev) <[i := ev]> w)
      end
  | EventsPatch eventId ev =>
      match env.(patch_fault) with
      | Some e => (inl e, with_call (CallPatch eventId ev) (fun m => m) w)
      | None =>
          match w.(events) !! eventId with
          | None => (inl not_found, with_call (CallPatch eventId ev) (fun m => m) w)
          | Some old =>
              (inr tt, with_call (CallPatch eventId ev) <[eventId := apply_patch ev old]> w)
          end
      end
  | EventsDelete eventId =>
      match env.(delete_fault) with
      | Some e => (inl e, with_call (CallDelete eventId) (fun m => m) w)
      | None =>
          match w.(events) !! eventId with
          | None => (inl not_found, with_call (CallDelete eventId) (fun m => m) w)
          | Some _ => (inr tt, with_call (CallDelete eventId) (delete eventId) w)
          end
      end
  end.

(** ** Programs *)

Inductive Prog (A : Type) : Type :=
| Ret (a : A)
| Throw (e : Exn)
| Vis {R : Type} (op : Op R) (k : R -> Prog A).

Arguments Ret {A} a.
Arguments Throw {A} e.
Arguments Vis {A R} op k.

Fixpoint bind {A B} (p : Prog A) (f : A -> Prog B) : Prog B :=
  match p with
  | Ret a => f a
  | Throw e => Throw e
  | Vis op k => Vis op (fun r => bind (k r) f)
  end.

(** [try { p } catch (e) { h e }]. *)
Fixpoint try_catch {A} (p : Prog A) (h : Exn -> Prog A) : Prog A :=
  match p with
  | Ret a => Ret a
  | Throw e => h e
  | Vis op k => Vis op (fun r => try_catch (k r) h)
  end.

(** An awaited call that cannot throw. *)
Definition perform {R} (op : Op R) : Prog R := Vis op Ret.

(** An awaited call that throws on failure. *)
Definition call {R} (op : Op (Exn + R)) : Prog R :=
  Vis op (fun r => match r with inl e => Throw e | inr x => Ret x end).

Declare Scope prog_scope.
Delimit Scope prog_scope with prog.
Notation "'let!' x ':=' p 'in' q" := (bind p (fun x => q))
  (at level 10, x name, p at level 100, q at level 200,
   format "'[v' 'let!'  x  ':='  p  'in' '/' q ']'") : prog_scope.
Notation "'do!' p 'in' q" := (bind p (fun _ => q))
  (at level 10, p at level 100, q at level 200,
   format "'[v' 'do!'  p  'in' '/' q ']'") : prog_scope.
Local Open Scope prog_scope.

(** Running a program to completion. *)
Fixpoint run {A} (env : Env) (p : Prog A) (w : World) : (Exn + A) * World :=
  match p with
  | Ret a => (inr a, w)
  | Throw e => (inl e, w)
  | Vis op k => let '(r, w') := exec env op w in run env (k r) w'
  end.

(** One awaited call of a program; a finished program stays as it is. *)
Definition step {A} (env : Env) (p : Prog A) (w : World) : Prog A * World :=
  match p with
  | Vis op k => let '(r, w') := exec env op w in (k r, w')
  | _ => (p, w)
  end.

Fixpoint steps {A} (n : nat) (env : Env) (p : Prog A) (w : World) : Prog A * World :=
  match n with
  | O => (p, w)
  | S n' => let '(p', w') := step env p w in steps n' env p' w'
  end.

(** ** The library: from a task to a calendar event *)

(** [formatDateForAllDay]: the date part of an ISO timestamp. *)
Definition formatDateForAllDay (dateStr : string) : string :=
  if JS.includes_char "T" dateStr then JS.split_head "T" dateStr else dateStr.

(** [new Date(`${dateOnly}T${task.dueTime}:00`)]. *)
Definition startDateTime (rt : Runtime) (date time : string) : option Z :=
  JSDate.of_string rt.(local_tza) (formatDateForAllDay date +:+ "T" +:+ time +:+ ":00").

(** [(task.duration || 60) * 60 * 1000]. *)
Definition durationMs (d : option Z) : Z :=
  (if JS.truthy_number d then default 60 d else 60) * 60 * 1000.

(** [new Date(startDateTime.getTime() + durationMs)]. *)
Definition endDateTime (rt : Runtime) (date time : string) (d : option Z) : option Z :=
  JSDate.plus (startDateTime rt date time) (durationMs d).

Definition timeZone_label : string := "Europe/Paris".

(** The timed branch: both dates are built, then printed; printing an
    invalid date throws. *)
Definition timedEvent (rt : Runtime) (date time : string) (d : option Z)
  : Exn + (EventDateTime * EventDateTime) :=
  match JSDate.toISOString (startDateTime rt date time) with
  | None => inl invalid_time
  | Some s =>
      match JSDate.toISOString (endDateTime rt date time d) with
      | None => inl invalid_time
      | Some e => inr (Timed s timeZone_label, Timed e timeZone_label)
      end
  end.

(** [start] and [end] of [createCalendarEvent]. *)
Definition createTimes (rt : Runtime) (task : TaskEvent)
  : Exn + (option EventDateTime * option EventDateTime) :=
  if JS.truthy task.(dueDate) && JS.truthy task.(dueTime) then
    match timedEvent rt (default "" task.(dueDate)) (default "" task.(dueTime))
            task.(te_duration) with
    | inl e => inl e
    | inr (s, e) => inr (Some s, Some e)
    end
  else if JS.truthy task.(dueDate) then
    let dateOnly := formatDateForAllDay (default "" task.(dueDate)) in
    inr (Some (AllDay dateOnly), Some (AllDay dateOnly))
  else
    inr (Some (Timed (JSDate.iso_string rt.(now)) timeZone_label),
         Some (Timed (JSDate.iso_string (rt.(now) + 3600000)) timeZone_label)).

(** [start] and [end] of [updateCalendarEvent]: undefined without a date. *)
Definition updateTimes (rt : Runtime) (task : TaskEvent)
  : Exn + (option EventDateTime * option EventDateTime) :=
  if JS.truthy task.(dueDate) && JS.truthy task.(dueTime) then
    match timedEvent rt (default "" task.(dueDate)) (default "" task.(dueTime))
            task.(te_duration) with
    | inl e => inl e
    | inr (s, e) => inr (Some s, Some e)
    end
  else if JS.truthy task.(dueDate) then
    let dateOnly := formatDateForAllDay (default "" task.(dueDate)) in
    inr (Some (AllDay dateOnly), Some (AllDay dateOnly))
  else inr (None, None).

(** The glyph of a status, as the source file spells it.  The column
    [status] holds one of the five keys (a [CHECK] constraint of the
    table); the lookup of the source is modelled for statuses that do not
    name a property of [Object.prototype]. *)
Definition statusEmoji (s : string) : string :=
  if String.eqb s "backlog" then "đź“‹"
  else if String.eqb s "todo" then "đź“ť"
  else if String.eqb s "in_progress" then "đź”„"
  else if String.eqb s "done" then "âś…"
  else if String.eqb s "cancelled" then "âťŚ"
  else "đź“‹".

Definition priorityText (p : Z) : string :=
  if p =? 1 then "Low"
  else if p =? 2 then "Medium"
  else if p =? 3 then "High"
  else if p =? 4 then "Urgent"
  else "No priority".

Definition newline : string := String (ascii_of_N 10) EmptyString.

(** [formatEventDescription]. *)
Definition formatEventDescription (task : TaskEvent) : string :=
  let description :=
    statusEmoji task.(te_status) +:+ " Status: "
      +:+ JS.replace_first "_" " " task.(te_status) +:+ newline
      +:+ "đźŽŻ Priority: " +:+ priorityText task.(te_priority) +:+ newline in
  let description :=
    match task.(te_description) with
    | Some d => if JS.truthy_string d then description +:+ newline +:+ d else description
    | None => description
    end in
  description +:+ newline +:+ newline +:+ "---" +:+ newline +:+ "Synced from Parallel Task".

(** [getPriorityColorId]. *)
Definition getPriorityColorId (p : Z) : string :=
  if p =? 4 then "11"
  else if p =? 3 then "6"
  else if p =? 2 then "5"
  else if p =? 1 then "8"
  else "1".

Definition eventOf (task : TaskEvent) (times : option EventDateTime * option EventDateTime)
  : Event :=
  {| summary := task.(te_title);
     ev_description := formatEventDescription task;
     ev_start := fst times;
     ev_end := snd times;
     colorId := getPriorityColorId task.(te_priority);
     ev_status := if String.eqb task.(te_status) "cancelled" then "cancelled" else "confirmed" |}.

(** The request body [event] that [createCalendarEvent] builds before it
    calls the service: the mapping of a task to an external event. *)
Definition toExternalEvent (rt : Runtime) (task : TaskEvent) : Exn + Event :=
  match createTimes rt task with
  | inl e => inl e
  | inr times => inr (eventOf task times)
  end.

(** The request body that [updateCalendarEvent] builds. *)
Definition toExternalPatch (rt : Runtime) (task : TaskEvent) : Exn + Event :=
  match updateTimes rt task with
  | inl e => inl e
  | inr times => inr (eventOf task times)
  end.

Definition lift {A} (r : Exn + A) : Prog A :=
  match r with
  | inl e => Throw e
  | inr a => Ret a
  end.

(** [createCalendarEvent]. *)
Definition createCalendarEvent (rt : Runtime) (task : TaskEvent) : Prog string :=
  let! event := lift (toExternalEvent rt task) in
  let! response_id := call (EventsInsert event) in
  if JS.truthy response_id then Ret (default "" response_id)
  else Throw (JsError "Failed to create calendar event").

(** [updateCalendarEvent]. *)
Definition updateCalendarEvent (rt : Runtime) (eventId : string) (task : TaskEvent)
  : Prog unit :=
  let! event := lift (toExternalPatch rt task) in
  call (EventsPatch eventId event).

(** [deleteCalendarEvent]. *)
Definition deleteCalendarEvent (eventId : string) : Prog unit :=
  call (EventsDelete eventId).

(** [refreshAccessToken]. *)
Definition refreshAccessToken (rt : Runtime) (refreshToken : string) : Prog NewTokens :=
  let! credentials := call (OAuthRefresh refreshToken) in
  if negb (JS.truthy credentials.(cred_access_token)) then
    Throw (JsError "Failed to refresh access token")
  else
    Ret {| new_access_token := default "" credentials.(cred_access_token);
           expiry_date := if JS.truthy_number credentials.(cred_expiry_date)
                          then default 0 credentials.(cred_expiry_date)
                          else rt.(now) + 3600000 |}.

(** ** The route: credentials *)

(** [getValidTokens]; [None] is [null]. *)
Definition getValidTokens (rt : Runtime) (userId : string) : Prog (option TokenRow) :=
  let! found := perform (TokensSelect userId) in
  match found with
  | None => Ret None
  | Some tokens =>
      if tokens.(expires_at) <=? rt.(now) then
        try_catch
          (let! newTokens := refreshAccessToken rt tokens.(refresh_token) in
           let! expires := lift (match JSDate.time_clip newTokens.(expiry_date) with
                                 | Some t => inr t
                                 | None => inl invalid_time
                                 end) in
           do! perform (TokensUpdate userId newTokens.(new_access_token) expires rt.(now)) in
           Ret (Some (with_access_token newTokens.(new_access_token) tokens)))
          (fun _ => Ret None)
      else Ret (Some tokens)
  end.

(** ** The route: requests and responses *)

Record Body := {
  taskId : option string;
  action : option string;
}.

Record Request := {
  authorization : option string;   (* the header *)
  json : option Body;              (* the parsed body; [None] does not parse *)
  query_taskId : option string;    (* [searchParams.get('taskId')] *)
}.

Inductive Response :=
| Unauthorized                  (* 401 { error: 'Unauthorized' } *)
| TaskIdRequired                (* 400 { error: 'Task ID required' } *)
| NotConnected                  (* 401 { error: 'Google Calendar not connected', needsAuth: true } *)
| TaskNotFound                  (* 404 { error: 'Task not found' } *)
| Deleted                       (* 200 { success: true, action: 'deleted' } *)
| Updated (eventId : string)    (* 200 { success: true, action: 'updated', eventId } *)
| Created (eventId : string)    (* 200 { success: true, action: 'created', eventId } *)
| SyncFailed (details : string) (* 500 { error: 'Failed to sync to calendar', details } *)
| Removed                       (* 200 { success: true } *)
| RemoveFailed.                 (* 500 { error: 'Failed to remove sync' } *)

Definition http_status (r : Response) : Z :=
  match r with
  | Unauthorized | NotConnected => 401
  | TaskIdRequired => 400
  | TaskNotFound => 404
  | Deleted | Updated _ | Created _ | Removed => 200
  | SyncFailed _ | RemoveFailed => 500
  end.

(** The [needsAuth] flag of the response body. *)
Definition needsAuth (r : Response) : bool :=
  match r with
  | NotConnected => true
  | _ => false
  end.

Definition is_error (r : Response) : bool := negb (http_status r =? 200).

Definition bearer (authHeader : string) : string :=
  JS.replace_first "Bearer " "" authHeader.

Definition taskEvent_of (task : TaskRow) : TaskEvent :=
  {| te_id := Some task.(id);
     te_title := task.(title);
     te_description := task.(description);
     dueDate := task.(due_date);
     dueTime := task.(due_time);
     te_duration := task.(duration);
     te_status := task.(status);
     te_priority := task.(priority) |}.

Definition log_row (user task : string) (eventId : string) (act : string) : LogRow :=
  {| log_user_id := user; log_task_id := Some task; log_event_id := Some eventId;
     log_action := act; log_status := "success" |}.

(** ** The route: [POST /api/calendar/sync] *)

(** The part of [POST] after the task has been read: the branch is chosen
    by [eventId], the value read from the task row. *)
Definition sync_task (rt : Runtime) (user : string) (tid : string)
    (act : option string) (task : TaskRow) : Prog Response :=
  let eventId := task.(google_calendar_event_id) in
  if (if decide (act = Some "delete") then true else false) && JS.truthy eventId then
    let eid := default "" eventId in
    do! deleteCalendarEvent eid in
    do! perform (TasksUpdateEvent tid None rt.(now)) in
    do! perform (LogInsert (log_row user tid eid "delete")) in
    Ret Deleted
  else
    let taskEvent := taskEvent_of task in
    if JS.truthy eventId then
      let eid := default "" eventId in
      do! updateCalendarEvent rt eid taskEvent in
      do! perform (LogInsert (log_row user tid eid "update")) in
      Ret (Updated eid)
    else
      let! eid := createCalendarEvent rt taskEvent in
      do! perform (TasksUpdateEvent tid (Some eid) rt.(now)) in
      do! perform (LogInsert (log_row user tid eid "create")) in
      Ret (Created eid).

Definition POST_body (rt : Runtime) (request : Request) : Prog Response :=
  if negb (JS.truthy request.(authorization)) then Ret Unauthorized
  else
    let! user := perform (AuthGetUser (bearer (default "" request.(authorization)))) in
    match user with
    | None => Ret Unauthorized
    | Some user =>
        let! body := lift (match request.(json) with
                           | Some b => inr b
                           | None => inl (SyntaxError "Unexpected end of JSON input")
                           end) in
        if negb (JS.truthy body.(taskId)) then Ret TaskIdRequired
        else
          let tid := default "" body.(taskId) in
          let! tokens := getValidTokens rt user in
          match tokens with
          | None => Ret NotConnected
          | Some _ =>
              let! task := perform (TasksSelect tid) in
              match task with
              | None => Ret TaskNotFound
              | Some task => sync_task rt user tid body.(action) task
              end
          end
    end.

(** The [catch] clause of [POST]. *)
Definition on_error (e : Exn) : Prog Response := Ret (SyncFailed (exn_string e)).

Definition POST (rt : Runtime) (request : Request) : Prog Response :=
  try_catch (POST_body rt request) on_error.

(** ** The route: [DELETE /api/calendar/sync] *)

Definition DELETE_body (rt : Runtime) (request : Request) : Prog Response :=
  if negb (JS.truthy request.(authorization)) then Ret Unauthorized
  else
    let! user := perform (AuthGetUser (bearer (default "" request.(authorization)))) in
    match user with
    | None => Ret Unauthorized
    | Some user =>
        if negb (JS.truthy request.(query_taskId)) then Ret TaskIdRequired
        else
          let tid := default "" request.(query_taskId) in
          let! task := perform (TasksSelectAnon tid) in
          let eventId := task ≫= google_calendar_event_id in
          do! (if JS.truthy eventId then
                 let! tokens := getValidTokens rt user in
                 match tokens with
                 | Some _ =>
                     try_catch (deleteCalendarEvent (default "" eventId))
                               (fun _ => Ret tt)
                 | None => Ret tt
                 end
               else Ret tt) in
          do! perform (TasksUpdateEvent tid None rt.(now)) in
          Ret Removed
    end.

Definition DELETE (rt : Runtime) (request : Request) : Prog Response :=
  try_catch (DELETE_body rt request) (fun _ => Ret RemoveFailed).

(** ** Observations on a world *)

(** The [google_calendar_event_id] of a task ([None] also when there is no
    such task). *)
Definition event_id_of (w : World) (tid : string) : option string :=
  w.(tasks) !! tid ≫= google_calendar_event_id.

Definition is_insert (c : CalendarCall) : bool :=
  match c with
  | CallInsert _ => true
  | _ => false
  end.

(** The number of create calls the calendar service has received. *)
Definition creates (w : World) : nat := length (List.filter is_insert w.(calls)).

(** The response of a finished handler, with the world it leaves.  A
    handler catches everything, so it always answers. *)
Definition respond (r : (Exn + Response) * World) : Response * World :=
  match r with
  | (inr resp, w) => (resp, w)
  | (inl e, w) => (SyncFailed (exn_string e), w)
  end.

Definition sync (env : Env) (rt : Runtime) (request : Request) (w : World)
  : Response * World :=
  respond (run env (POST rt request) w).

Definition unsync (env : Env) (rt : Runtime) (request : Request) (w : World)
  : Response * World :=
  respond (run env (DELETE rt request) w).

(** ** Two requests in flight *)

(** Two handlers interleaved at their awaited calls: [true] lets the first
    make its next call, [false] the second. *)
Fixpoint interleave (sched : list bool) (envA envB : Env)
    (pA pB : Prog Response) (w : World) : Prog Response * Prog Response * World :=
  match sched with
  | [] => (pA, pB, w)
  | true :: sched' =>
      let '(pA', w') := step envA pA w in interleave sched' envA envB pA' pB w'
  | false :: sched' =>
      let '(pB', w') := step envB pB w in interleave sched' envA envB pA pB' w'
  end.

(** The first request reads, the second runs from start to end, the first
    goes on: both reads of the task come before both writes. *)
Definition overlapping : list bool :=
  [true; true; true; false; false; false; false; false; false; true; true; true].

(** Both requests read, then both create, then both write. *)
Definition alternating : list bool :=
  [true; false; true; false; true; false; true; false; true; false; true; false].

(** ** Auxiliary notions of the statements *)

(** The request carries a token that the auth service maps to [user]. *)
Definition authenticated (env : Env) (request : Request) (user : string) : Prop :=
  JS.truthy request.(authorization) = true
  /\ env.(getUser) (bearer (default "" request.(authorization))) = Some user.

(** What a refresh yields for a stored row: the new access token and the
    new expiry, or nothing when [refreshAccessToken] throws or the expiry
    cannot be printed. *)
Definition refresh_outcome (env : Env) (rt : Runtime) (row : TokenRow) : option (string * Z) :=
  match env.(refresh_reply) row.(refresh_token) with
  | inl _ => None
  | inr c =>
      if JS.truthy c.(cred_access_token) then
        t ← JSDate.time_clip (if JS.truthy_number c.(cred_expiry_date)
                              then default 0 c.(cred_expiry_date)
                              else rt.(now) + 3600000);
        Some (default "" c.(cred_access_token), t)
      else None
  end.

(** The columns of a credential row that a refresh leaves alone. *)
Definition keeps_refresh_token (r r' : TokenRow) : Prop :=
  r'.(user_id) = r.(user_id) /\ r'.(refresh_token) = r.(refresh_token)
  /\ r'.(scope) = r.(scope) /\ r'.(token_type) = r.(token_type).

(** ** Scenarios *)

Module Scenario.

Definition row : TokenRow :=
  {| user_id := "u1"; access_token := "a0"; refresh_token := "r0";
     expires_at := 5000; scope := "calendar"; token_type := "Bearer";
     updated_at := None |}.

Definition task : TaskRow :=
  {| id := "t1"; title := "Write report"; description := None;
     status := "todo"; priority := 4; due_date := Some "2025-03-10";
     due_time := Some "14:00"; duration := Some 30;
     google_calendar_event_id := None; task_updated_at := None |}.

Definition linked (eid : string) : TaskRow := set_task_event (Some eid) 0 task.

Definition world (t : TaskRow) : World :=
  {| tokens := {[ "u1" := row ]}; tasks := {[ "t1" := t ]};
     sync_log := []; events := ∅; calls := [] |}.

(** No credential row at all. *)
Definition disconnected : World :=
  {| tokens := ∅; tasks := {[ "t1" := task ]};
     sync_log := []; events := ∅; calls := [] |}.

Definition granted : Credentials :=
  {| cred_access_token := Some "a1"; cred_refresh_token := None;
     cred_expiry_date := Some 9999000 |}.

(** An outside where everything works; the calendar names a created
    event [eid]. *)
Definition env (eid : string) : Env :=
  {| getUser := fun t => if String.eqb t "jwt" then Some "u1" else None;
     anon_visible := fun _ => true;
     refresh_reply := fun _ => inr granted;
     insert_reply := InsertReturns (Some eid);
     patch_fault := None;
     delete_fault := None |}.

(** The same outside with a refresh grant that is refused. *)
Definition env_revoked : Env :=
  {| getUser := fun t => if String.eqb t "jwt" then Some "u1" else None;
     anon_visible := fun _ => true;
     refresh_reply := fun _ => inl (HttpError 400 "invalid_grant");
     insert_reply := InsertReturns (Some "e1");
     patch_fault := None;
     delete_fault := None |}.

(** A process in UTC, before and after the stored token expires. *)
Definition early : Runtime := {| now := 1000; local_tza := JSDate.UTC |}.
Definition late : Runtime := {| now := 9000; local_tza := JSDate.UTC |}.

(** The body of the create call for the task, in a process in UTC. *)
Definition create_body : Event :=
  eventOf (taskEvent_of task)
    (Some (Timed "2025-03-10T14:00:00.000Z" "Europe/Paris"),
     Some (Timed "2025-03-10T14:30:00.000Z" "Europe/Paris")).

(** The body of the update call for the linked task. *)
Definition patch_body : Event :=
  eventOf (taskEvent_of (linked "e1"))
    (Some (Timed "2025-03-10T14:00:00.000Z" "Europe/Paris"),
     Some (Timed "2025-03-10T14:30:00.000Z" "Europe/Paris")).

Definition request : Request :=
  {| authorization := Some "Bearer jwt";
     json := Some {| taskId := Some "t1"; action := None |};
     query_taskId := Some "t1" |}.

End Scenario.

(** ** What a sync request has done, by its response *)

(** The columns of a task row that the bridge never writes. *)
Definition same_task_data (a b : TaskRow) : Prop :=
  b.(id) = a.(id) /\ b.(title) = a.(title) /\ b.(description) = a.(description)
  /\ b.(status) = a.(status) /\ b.(priority) = a.(priority)
  /\ b.(due_date) = a.(due_date) /\ b.(due_time) = a.(due_time)
  /\ b.(duration) = a.(duration).

(** The world [w'] after a sync request for the task [named] answered [r]
    in the world [w]. *)
Definition sync_post (rt : Runtime) (named : option string) (w : World)
    (r : Response) (w' : World) : Prop :=
  match r with
  | Created eid =>
      exists user tid ev,
        named = Some tid
        /\ JS.truthy (event_id_of w tid) = false /\ is_Some (tasks w !! tid)
        /\ JS.truthy_string eid = true
        /\ tasks w' = alter (set_task_event (Some eid) rt.(now)) tid (tasks w)
        /\ sync_log w' = (sync_log w ++ [log_row user tid eid "create"])%list
        /\ events w' = <[eid := ev]> (events w)
        /\ calls w' = (calls w ++ [CallInsert ev])%list
  | Updated eid =>
      exists user tid ev old,
        named = Some tid
        /\ event_id_of w tid = Some eid /\ JS.truthy_string eid = true
        /\ tasks w' = tasks w
        /\ sync_log w' = (sync_log w ++ [log_row user tid eid "update"])%list
        /\ events w !! eid = Some old
        /\ events w' = <[eid := apply_patch ev old]> (events w)
        /\ calls w' = (calls w ++ [CallPatch eid ev])%list
  | Deleted =>
      exists user tid eid,
        named = Some tid
        /\ event_id_of w tid = Some eid /\ JS.truthy_string eid = true
        /\ tasks w' = alter (set_task_event None rt.(now)) tid (tasks w)
        /\ sync_log w' = (sync_log w ++ [log_row user tid eid "delete"])%list
        /\ is_Some (events w !! eid)
        /\ events w' = delete eid (events w)
        /\ calls w' = (calls w ++ [CallDelete eid])%list
  | Unauthorized | TaskIdRequired | NotConnected | TaskNotFound =>
      tasks w' = tasks w /\ sync_log w' = sync_log w
      /\ events w' = events w /\ calls w' = calls w
  | SyncFailed _ =>
      tasks w' = tasks w /\ sync_log w' = sync_log w
      /\ (calls w' = calls w
          \/ exists c, calls w' = (calls w ++ [c])%list
                       /\ (is_insert c = true
                           \/ exists tid, named = Some tid
                                          /\ JS.truthy (event_id_of w tid) = true))
  | Removed | RemoveFailed => False
  end.

(** The world [w'] after an unsync request for the task [named] answered
    [r] in the world [w]. *)
Definition unsync_post (rt : Runtime) (named : option string) (w : World)
    (r : Response) (w' : World) : Prop :=
  match r with
  | Unauthorized | TaskIdRequired => w' = w
  | Removed =>
      exists tid,
        named = Some tid
        /\ tasks w' = alter (set_task_event None rt.(now)) tid (tasks w)
        /\ sync_log w' = sync_log w
        /\ ((calls w' = calls w /\ events w' = events w)
            \/ exists eid,
                event_id_of w tid = Some eid /\ JS.truthy_string eid = true
                /\ calls w' = (calls w ++ [CallDelete eid])%list
                /\ (events w' = events w \/ events w' = delete eid (events w)))
  | _ => False
  end.

(** ** Further scenarios *)

Module Cases.

(** The task is linked to event [e1], which the calendar holds. *)
Definition synced : World :=
  {| tokens := {[ "u1" := Scenario.row ]};
     tasks := {[ "t1" := Scenario.linked "e1" ]};
     sync_log := []; events := {[ "e1" := Scenario.create_body ]};
     calls := [] |}.

(** The same, for a user without a credential row. *)
Definition unconnected : World :=
  {| tokens := ∅; tasks := {[ "t1" := Scenario.linked "e1" ]};
     sync_log := []; events := {[ "e1" := Scenario.create_body ]};
     calls := [] |}.

End Cases.

(** ** The OAuth callback: [GET /api/auth/callback/google] *)

(** [tokens] of [oauth2Client.getToken(code)]. *)
Record TokenReply := {
  tk_access_token : option string;
  tk_refresh_token : option string;
  tk_expiry_date : option Z;
  tk_scope : option string;
  tk_token_type : option string;
}.

(** The result of [getTokensFromCode]. *)
Record CodeTokens := {
  ct_access_token : string;
  ct_refresh_token : string;
  ct_expiry_date : Z;
  ct_scope : string;
  ct_token_type : string;
}.

Definition GOOGLE_SCOPES : list string :=
  ["https://www.googleapis.com/auth/calendar";
   "https://www.googleapis.com/auth/calendar.events"].

(** What the outside answers to the handlers below: the code exchange, and
    whether the store refuses the upsert, the delete or the update it is
    sent (a constraint that the model does not hold, an outage). *)
Record Outside := {
  token_reply : string -> Exn + TokenReply;
  upsert_refused : bool;
  delete_refused : bool;
  update_refused : bool;
}.

(** [getTokensFromCode]. *)
Definition getTokensFromCode (out : Outside) (rt : Runtime) (code : string)
  : Exn + CodeTokens :=
  match out.(token_reply) code with
  | inl e => inl e
  | inr tokens =>
      if negb (JS.truthy tokens.(tk_access_token))
         || negb (JS.truthy tokens.(tk_refresh_token))
      then inl (JsError "Failed to get tokens from Google")
      else inr {| ct_access_token := default "" tokens.(tk_access_token);
                  ct_refresh_token := default "" tokens.(tk_refresh_token);
                  ct_expiry_date := if JS.truthy_number tokens.(tk_expiry_date)
                                    then default 0 tokens.(tk_expiry_date)
                                    else rt.(now) + 3600000;
                  ct_scope := if JS.truthy tokens.(tk_scope)
                              then default "" tokens.(tk_scope)
                              else String.concat " " GOOGLE_SCOPES;
                  ct_token_type := if JS.truthy tokens.(tk_token_type)
                                   then default "" tokens.(tk_token_type)
                                   else "Bearer" |}
  end.

(** The query of the callback: [code], [state] (the user id) and [error]. *)
Record CallbackQuery := {
  cb_code : option string;
  cb_state : option string;
  cb_error : option string;
}.

Definition connected_url : string := "/?google_connected=true".

(** The log row of a connection: no task, no event. *)
Definition connection_row (user : string) : LogRow :=
  {| log_user_id := user; log_task_id := None; log_event_id := None;
     log_action := "sync"; log_status := "success" |}.

(** The callback handler: the redirect target and the world it leaves. *)
Definition callback_GET (out : Outside) (rt : Runtime) (q : CallbackQuery) (w : World)
  : string * World :=
  if JS.truthy q.(cb_error) then
    ("/?error=google_auth_failed&message=" +:+ default "" q.(cb_error), w)
  else if negb (JS.truthy q.(cb_code)) || negb (JS.truthy q.(cb_state)) then
    ("/?error=missing_params", w)
  else
    let state := default "" q.(cb_state) in
    match getTokensFromCode out rt (default "" q.(cb_code)) with
    | inl _ => ("/?error=oauth_failed", w)
    | inr tokens =>
        match JSDate.time_clip tokens.(ct_expiry_date) with
        | None => ("/?error=oauth_failed", w)
        | Some expires =>
            if out.(upsert_refused) then ("/?error=token_storage_failed", w)
            else
              (connected_url,
               with_log (connection_row state)
                 (with_tokens
                    <[state := {| user_id := state;
                                  access_token := tokens.(ct_access_token);
                                  refresh_token := tokens.(ct_refresh_token);
                                  expires_at := expires;
                                  scope := tokens.(ct_scope);
                                  token_type := tokens.(ct_token_type);
                                  updated_at := Some rt.(now) |}]> w))
        end
    end.

(** ** The status route: [GET] and [DELETE /api/calendar/status] *)

Inductive StatusResponse :=
| StatusUnauthorized              (* 401 { error: 'Unauthorized' } *)
| StatusDisconnected              (* 200 { connected: false } *)
| StatusConnected (expiresAt : Z) (isExpired : bool) (lastUpdated : option Z)
| StatusSuccess                   (* 200 { success: true } *)
| StatusFailed.                   (* 500 { error: 'Failed to disconnect' } *)

Definition status_GET (env : Env) (rt : Runtime) (request : Request) (w : World)
  : StatusResponse :=
  if negb (JS.truthy request.(authorization)) then StatusUnauthorized
  else
    match env.(getUser) (bearer (default "" request.(authorization))) with
    | None => StatusUnauthorized
    | Some user =>
        match w.(tokens) !! user with
        | None => StatusDisconnected
        | Some row =>
            StatusConnected row.(expires_at) (row.(expires_at) <=? rt.(now))
              row.(updated_at)
        end
    end.

Definition status_DELETE (env : Env) (out : Outside) (request : Request) (w : World)
  : StatusResponse * World :=
  if negb (JS.truthy request.(authorization)) then (StatusUnauthorized, w)
  else
    match env.(getUser) (bearer (default "" request.(authorization))) with
    | None => (StatusUnauthorized, w)
    | Some user =>
        if out.(delete_refused) then (StatusFailed, w)
        else (StatusSuccess, with_tokens (delete user) w)
    end.

(** ** The task route: [PATCH /api/tasks/[taskId]] *)

(** The body of the request, for the columns of the model: [None] leaves a
    column out, [Some v] sets it ([Some None] sets a nullable column to
    null). *)
Record TaskUpdates := {
  u_title : option string;
  u_description : option (option string);
  u_status : option string;
  u_priority : option Z;
  u_due_date : option (option string);
  u_due_time : option (option string);
  u_duration : option (option Z);
  u_event_id : option (option string);
}.

(** [{ ...updates, updated_at }] applied to a row. *)
Definition apply_updates (u : TaskUpdates) (updated : Z) (r : TaskRow) : TaskRow :=
  {| id := r.(id);
     title := default r.(title) u.(u_title);
     description := default r.(description) u.(u_description);
     status := default r.(status) u.(u_status);
     priority := default r.(priority) u.(u_priority);
     due_date := default r.(due_date) u.(u_due_date);
     due_time := default r.(due_time) u.(u_due_time);
     duration := default r.(duration) u.(u_duration);
     google_calendar_event_id := default r.(google_calendar_event_id) u.(u_event_id);
     task_updated_at := Some updated |}.

(** The two [CHECK] constraints of the table [tasks]. *)
Definition row_accepted (r : TaskRow) : bool :=
  (String.eqb r.(status) "backlog" || String.eqb r.(status) "todo"
   || String.eqb r.(status) "in_progress" || String.eqb r.(status) "done"
   || String.eqb r.(status) "cancelled")
  && (0 <=? r.(priority)) && (r.(priority) <=? 4).

Inductive PatchResponse :=
| PatchUnauthorized            (* 401 *)
| PatchUpdateFailed            (* 500 { error: 'Failed to update task' } *)
| PatchInternalError           (* 500 { error: 'Internal server error' } *)
| PatchTask (task : TaskRow).  (* 200 { task } *)

(** The [TaskEvent] that the task route hands to [updateCalendarEvent]: it
    carries neither the due time nor the duration. *)
Definition patched_taskEvent (task : TaskRow) : TaskEvent :=
  {| te_id := Some task.(id);
     te_title := task.(title);
     te_description := task.(description);
     dueDate := task.(due_date);
     dueTime := None;
     te_duration := None;
     te_status := task.(status);
     te_priority := task.(priority) |}.

(** The handler; [body] is the parsed request body ([None] does not
    parse). *)
Definition PATCH (env : Env) (out : Outside) (rt : Runtime) (request : Request)
    (tid : string) (body : option TaskUpdates) (w : World) : PatchResponse * World :=
  if negb (JS.truthy request.(authorization)) then (PatchUnauthorized, w)
  else
    match env.(getUser) (bearer (default "" request.(authorization))) with
    | None => (PatchUnauthorized, w)
    | Some user =>
        match body with
        | None => (PatchInternalError, w)
        | Some updates =>
            match w.(tasks) !! tid with
            | None => (PatchUpdateFailed, w)
            | Some old =>
                let task := apply_updates updates rt.(now) old in
                if out.(update_refused) || negb (row_accepted task)
                then (PatchUpdateFailed, w)
                else
                  let w1 := with_tasks <[tid := task]> w in
                  if JS.truthy task.(google_calendar_event_id) then
                    match run env (getValidTokens rt user) w1 with
                    | (inr (Some _), w2) =>
                        (PatchTask task,
                         snd (run env
                                (try_catch
                                   (updateCalendarEvent rt
                                      (default "" task.(google_calendar_event_id))
                                      (patched_taskEvent task))
                                   (fun _ => Ret tt)) w2))
                    | (_, w2) => (PatchTask task, w2)
                    end
                  else (PatchTask task, w1)
            end
        end
    end.

(** ** The events route: [GET /api/calendar/events] *)

(** [s.includes(needle)]. *)
Fixpoint string_includes (needle s : string) : bool :=
  match JS.strip_prefix needle s with
  | Some _ => true
  | None =>
      match s with
      | EmptyString => false
      | String _ s' => string_includes needle s'
      end
  end.

(** [a || b] on optional strings. *)
Definition or_else (a b : option string) : option string :=
  if JS.truthy a then a else b.

(** [start] or [end] of a listed event. *)
Record ListedTime := {
  lt_dateTime : option string;
  lt_date : option string;
}.

(** An item of [events.list]. *)
Record ListedEvent := {
  le_id : option string;
  le_summary : option string;
  le_description : option string;
  le_start : option ListedTime;
  le_end : option ListedTime;
  le_colorId : option string;
  le_htmlLink : option string;
  le_status : option string;
}.

(** An item of the response. *)
Record FormattedEvent := {
  fe_id : option string;
  fe_title : string;
  fe_description : option string;
  fe_start : option string;
  fe_end : option string;
  allDay : bool;
  fe_color : option string;
  fe_htmlLink : option string;
  fe_status : option string;
  fe_taskId : option string;
  fe_taskStatus : option string;
  isFromApp : bool;
}.

(** [new Map(tasks.map(t => [t.google_calendar_event_id, t]))]: a later row
    replaces an earlier one with the same event id. *)
Definition taskMap (rows : list TaskRow) : gmap string TaskRow :=
  foldl (fun m t => match t.(google_calendar_event_id) with
                    | Some k => <[k := t]> m
                    | None => m
                    end) ∅ rows.

Definition app_marker : string := "Synced from Parallel Task".

(** The body of [events.map(event => ...)]. *)
Definition formatEvent (tm : gmap string TaskRow) (event : ListedEvent) : FormattedEvent :=
  let linked := event.(le_id) ≫= (tm !!.) in
  {| fe_id := event.(le_id);
     fe_title := if JS.truthy event.(le_summary)
                 then default "" event.(le_summary) else "Untitled";
     fe_description := event.(le_description);
     fe_start := or_else (event.(le_start) ≫= lt_dateTime) (event.(le_start) ≫= lt_date);
     fe_end := or_else (event.(le_end) ≫= lt_dateTime) (event.(le_end) ≫= lt_date);
     allDay := negb (JS.truthy (event.(le_start) ≫= lt_dateTime));
     fe_color := event.(le_colorId);
     fe_htmlLink := event.(le_htmlLink);
     fe_status := event.(le_status);
     fe_taskId := match linked with
                  | Some t => if JS.truthy_string t.(id) then Some t.(id) else None
                  | None => None
                  end;
     fe_taskStatus := match linked with
                      | Some t => if JS.truthy_string t.(status) then Some t.(status) else None
                      | None => None
                      end;
     isFromApp := match event.(le_description) with
                  | Some d => string_includes app_marker d
                  | None => false
                  end
                  || bool_decide (is_Some linked) |}.

(** An event of the calendar as [events.list] returns it. *)
Definition listed (eid : string) (ev : Event) : ListedEvent :=
  let time (t : EventDateTime) : ListedTime :=
    match t with
    | Timed s _ => {| lt_dateTime := Some s; lt_date := None |}
    | AllDay d => {| lt_dateTime := None; lt_date := Some d |}
    end in
  {| le_id := Some eid;
     le_summary := Some ev.(summary);
     le_description := Some ev.(ev_description);
     le_start := time <$> ev.(ev_start);
     le_end := time <$> ev.(ev_end);
     le_colorId := Some ev.(colorId);
     le_htmlLink := None;
     le_status := Some ev.(ev_status) |}.

(** An outside that refuses nothing. *)
Definition willing : Outside :=
  {| token_reply := fun _ => inl (JsError "no exchange");
     upsert_refused := false; delete_refused := false; update_refused := false |}.

(** A change of title only. *)
Definition retitle (t : string) : TaskUpdates :=
  {| u_title := Some t; u_description := None; u_status := None; u_priority := None;
     u_due_date := None; u_due_time := None; u_duration := None; u_event_id := None |}.

(** * Properties *)

(** ** The date model on examples *)

Example iso_string_epoch : JSDate.iso_string 0 = "1970-01-01T00:00:00.000Z".
Proof. reflexivity. Qed.

(** A day past the end of its month runs over into the next month, and the
    hour 24 is midnight of the next day; a day 32 or an hour 25 is an invalid
    date. *)
Example of_string_overflow :
  JSDate.parse_wall_clock "2025-02-30T10:00:00"
  = JSDate.parse_wall_clock "2025-03-02T10:00:00"
  /\ JSDate.parse_wall_clock "2025-03-10T24:00:00"
     = JSDate.parse_wall_clock "2025-03-11T00:00:00"
  /\ JSDate.parse_wall_clock "2025-03-10T24:00:01" = None
  /\ JSDate.parse_wall_clock "2025-03-32T10:00:00" = None
  /\ JSDate.parse_wall_clock "2025-03-10T25:00:00" = None.
Proof. vm_compute. repeat split; reflexivity. Qed.

Example of_string_utc :
  JSDate.toISOString (JSDate.of_string JSDate.UTC "2025-03-10T14:00:00")
  = Some "2025-03-10T14:00:00.000Z".
Proof. vm_compute. reflexivity. Qed.

Example of_string_paris_winter :
  JSDate.toISOString (JSDate.of_string (fun _ => 3600000) "2025-03-10T14:00:00")
  = Some "2025-03-10T13:00:00.000Z".
Proof. vm_compute. reflexivity. Qed.

Example paris_summer_2025 :
  JSDate.Europe_Paris 1743296400000 = 7200000
  /\ JSDate.Europe_Paris 1743296399999 = 3600000.
Proof. vm_compute. split; reflexivity. Qed.


(** ** Running composed programs *)

Lemma run_bind {A B} (env : Env) (p : Prog A) (f : A -> Prog B) (w : World) :
  run env (bind p f) w =
  match run env p w with
  | (inr a, w') => run env (f a) w'
  | (inl e, w') => (inl e, w')
  end.
Proof.
  revert w. induction p as [a | e | R op k IH]; intros w; simpl; try reflexivity.
  destruct (exec env op w) as [r w']. apply IH.
Qed.

Lemma run_try_catch {A} (env : Env) (p : Prog A) (h : Exn -> Prog A) (w : World) :
  run env (try_catch p h) w =
  match run env p w with
  | (inr a, w') => (inr a, w')
  | (inl e, w') => run env (h e) w'
  end.
Proof.
  revert w. induction p as [a | e | R op k IH]; intros w; simpl; try reflexivity.
  destruct (exec env op w) as [r w']. apply IH.
Qed.

Lemma run_lift {A} (env : Env) (r : Exn + A) (w : World) :
  run env (lift r) w = (r, w).
Proof. destruct r; reflexivity. Qed.

(** ** The credential helper *)

Lemma run_getValidTokens (env : Env) (rt : Runtime) (u : string) (w : World) :
  run env (getValidTokens rt u) w =
  match w.(tokens) !! u with
  | None => (inr None, w)
  | Some row =>
      if row.(expires_at) <=? rt.(now) then
        match refresh_outcome env rt row with
        | Some (a, t) =>
            (inr (Some (with_access_token a row)),
             with_tokens (alter (set_token_refresh a t rt.(now)) u) w)
        | None => (inr None, w)
        end
      else (inr (Some row), w)
  end.
Proof.
  unfold getValidTokens, refresh_outcome. simpl.
  destruct (tokens w !! u) as [row|]; [|reflexivity].
  destruct (expires_at row <=? now rt); [|reflexivity].
  simpl. destruct (refresh_reply env (refresh_token row)) as [e|c]; [reflexivity|].
  simpl. destruct (JS.truthy (cred_access_token c)); [|reflexivity].
  simpl. destruct (JSDate.time_clip _); reflexivity.
Qed.

Lemma run_refreshAccessToken (env : Env) (rt : Runtime) (tok : string) (w : World) :
  run env (refreshAccessToken rt tok) w =
  (match env.(refresh_reply) tok with
   | inl e => inl e
   | inr c =>
       if JS.truthy c.(cred_access_token) then
         inr {| new_access_token := default "" c.(cred_access_token);
                expiry_date := if JS.truthy_number c.(cred_expiry_date)
                               then default 0 c.(cred_expiry_date)
                               else rt.(now) + 3600000 |}
       else inl (JsError "Failed to refresh access token")
   end, w).
Proof.
  unfold refreshAccessToken. simpl.
  destruct (refresh_reply env tok) as [e|c]; [reflexivity|].
  simpl. destruct (JS.truthy (cred_access_token c)); reflexivity.
Qed.

(** [getValidTokens] always returns: every failure inside is caught. *)
Lemma getValidTokens_returns (env : Env) (rt : Runtime) (u : string) (w : World) :
  exists o w', run env (getValidTokens rt u) w = (inr o, w').
Proof.
  rewrite run_getValidTokens.
  destruct (tokens w !! u) as [row|]; [|eauto].
  destruct (expires_at row <=? now rt); [|eauto].
  destruct (refresh_outcome env rt row) as [[a t]|]; eauto.
Qed.

(** A [null] result leaves the world as it was. *)
Lemma getValidTokens_null (env : Env) (rt : Runtime) (u : string) (w w' : World) :
  run env (getValidTokens rt u) w = (inr None, w') -> w' = w.
Proof.
  rewrite run_getValidTokens.
  destruct (tokens w !! u) as [row|]; [|congruence].
  destruct (expires_at row <=? now rt); [|congruence].
  destruct (refresh_outcome env rt row) as [[a t]|]; congruence.
Qed.

(** [getValidTokens] writes to the credential table only. *)
Lemma getValidTokens_frame (env : Env) (rt : Runtime) (u : string) (w : World) :
  let w' := snd (run env (getValidTokens rt u) w) in
  tasks w' = tasks w /\ sync_log w' = sync_log w
  /\ events w' = events w /\ calls w' = calls w.
Proof.
  rewrite run_getValidTokens.
  destruct (tokens w !! u) as [row|]; [|simpl; auto].
  destruct (expires_at row <=? now rt); [|simpl; auto].
  destruct (refresh_outcome env rt row) as [[a t]|]; simpl; auto.
Qed.

(** ** Credentials: C3, C4, C5 *)

(** C3, as stated, fails: with a stored token that expired at 5000, a clock
    at 9000 and a refresh that succeeds, the record returned is the stored
    row with the new access token and the stored, stale [expires_at]. *)
Lemma getValidTokens_stale_expires_at :
  fst (run (Scenario.env "e1") (getValidTokens Scenario.late "u1")
         (Scenario.world Scenario.task))
  = inr (Some (with_access_token "a1" Scenario.row))
  /\ expires_at (with_access_token "a1" Scenario.row) = 5000
  /\ now Scenario.late = 9000
  /\ ~ (now Scenario.late < expires_at (with_access_token "a1" Scenario.row)).
Proof.
  split; [vm_compute; reflexivity|].
  split; [reflexivity|]. split; [reflexivity|]. vm_compute. discriminate.
Qed.

(** C3, amended: a non-null result of [getValidTokens] is either the stored
    row, unchanged and with [expires_at] strictly after the clock reading,
    with no write (fast path); or, for a stored row that has expired, the
    stored row with only [access_token] replaced by the token that
    [refreshAccessToken] returned, its [expires_at] field still the stored
    one, while the row in the store now holds the new token and expiry. *)
Theorem getValidTokens_result (env : Env) (rt : Runtime) (u : string)
    (w w' : World) (r : TokenRow) :
  run env (getValidTokens rt u) w = (inr (Some r), w') ->
  exists stored, w.(tokens) !! u = Some stored /\
    ((rt.(now) < stored.(expires_at) /\ r = stored /\ w' = w)
     \/ (stored.(expires_at) <= rt.(now) /\
         exists nt,
           run env (refreshAccessToken rt stored.(refresh_token)) w = (inr nt, w)
           /\ r = with_access_token nt.(new_access_token) stored
           /\ r.(expires_at) = stored.(expires_at)
           /\ w'.(tokens) !! u
              = Some (set_token_refresh nt.(new_access_token) nt.(expiry_date)
                        rt.(now) stored))).
Proof.
  rewrite run_getValidTokens. intros H.
  destruct (tokens w !! u) as [stored|] eqn:Hrow; [|discriminate].
  exists stored. split; [reflexivity|].
  destruct (expires_at stored <=? now rt) eqn:Hexp.
  - right. apply Z.leb_le in Hexp. split; [exact Hexp|].
    rewrite run_refreshAccessToken.
    unfold refresh_outcome in H.
    destruct (refresh_reply env (refresh_token stored)) as [e|c]; [discriminate|].
    destruct (JS.truthy (cred_access_token c)); [|discriminate].
    destruct (JSDate.time_clip _) as [t|] eqn:Hclip; simpl in H; [|discriminate].
    injection H as Hr Hw. subst r w'.
    unfold JSDate.time_clip in Hclip.
    destruct (Z.abs _ <=? _); [|discriminate]. injection Hclip as Ht.
    eexists. split; [reflexivity|]. simpl. split; [reflexivity|].
    split; [reflexivity|].
    rewrite lookup_alter_eq, Hrow. simpl. rewrite Ht. reflexivity.
  - left. apply Z.leb_gt in Hexp. injection H as Hr Hw. subst. auto.
Qed.

Lemma getValidTokens_result_witness :
  exists stored, tokens (Scenario.world Scenario.task) !! "u1" = Some stored /\
    ((now Scenario.early < stored.(expires_at)
      /\ Scenario.row = stored
      /\ Scenario.world Scenario.task = Scenario.world Scenario.task)
     \/ (stored.(expires_at) <= now Scenario.early /\
         exists nt,
           run (Scenario.env "e1")
               (refreshAccessToken Scenario.early stored.(refresh_token))
               (Scenario.world Scenario.task)
           = (inr nt, Scenario.world Scenario.task)
           /\ Scenario.row = with_access_token nt.(new_access_token) stored
           /\ Scenario.row.(expires_at) = stored.(expires_at)
           /\ tokens (Scenario.world Scenario.task) !! "u1"
              = Some (set_token_refresh nt.(new_access_token) nt.(expiry_date)
                        (now Scenario.early) stored))).
Proof.
  apply (getValidTokens_result (Scenario.env "e1") Scenario.early "u1").
  vm_compute. reflexivity.
Defined.

(** C4: whatever the refresh grant answers, [getValidTokens] leaves every
    credential row in place with its [user_id], [refresh_token], [scope] and
    [token_type]; rows of other users are not touched at all.  The write of a
    successful refresh therefore changes [access_token], [expires_at] and
    [updated_at] only. *)
Theorem refresh_keeps_refresh_token (env : Env) (rt : Runtime) (u v : string) (w : World) :
  let w' := snd (run env (getValidTokens rt u) w) in
  match w.(tokens) !! v, w'.(tokens) !! v with
  | Some r, Some r' => keeps_refresh_token r r' /\ (v <> u -> r' = r)
  | None, None => True
  | _, _ => False
  end.
Proof.
  rewrite run_getValidTokens.
  assert (Hsame : match tokens w !! v, tokens w !! v with
                  | Some r, Some r' => keeps_refresh_token r r' /\ (v <> u -> r' = r)
                  | None, None => True
                  | _, _ => False
                  end).
  { destruct (tokens w !! v); [|exact I]. repeat split; reflexivity. }
  destruct (tokens w !! u) as [row|] eqn:Hrow; [|exact Hsame].
  destruct (expires_at row <=? now rt); [|exact Hsame].
  destruct (refresh_outcome env rt row) as [[a t]|]; [|exact Hsame].
  simpl. destruct (decide (v = u)) as [->|Hne].
  - rewrite lookup_alter_eq, Hrow. simpl. repeat split; try reflexivity.
    intros Hvu. contradiction.
  - rewrite lookup_alter_ne by congruence. exact Hsame.
Qed.

(** C5: when the stored credential has expired and [refreshAccessToken]
    throws, [getValidTokens] returns [null] and the world, the credential row
    included, is exactly as before. *)
Theorem refresh_failure_keeps_credential (env : Env) (rt : Runtime) (u : string)
    (w w1 : World) (row : TokenRow) (e : Exn) :
  w.(tokens) !! u = Some row ->
  row.(expires_at) <= rt.(now) ->
  run env (refreshAccessToken rt row.(refresh_token)) w = (inl e, w1) ->
  run env (getValidTokens rt u) w = (inr None, w)
  /\ (snd (run env (getValidTokens rt u) w)).(tokens) !! u = Some row.
Proof.
  intros Hrow Hexp Hthrow.
  assert (Hrun : run env (getValidTokens rt u) w = (inr None, w)).
  { rewrite run_getValidTokens, Hrow.
    apply Z.leb_le in Hexp. rewrite Hexp.
    rewrite run_refreshAccessToken in Hthrow. unfold refresh_outcome.
    destruct (refresh_reply env (refresh_token row)) as [e'|c]; [reflexivity|].
    destruct (JS.truthy (cred_access_token c)); [discriminate|reflexivity]. }
  rewrite Hrun. split; [reflexivity|exact Hrow].
Qed.

Lemma refresh_failure_keeps_credential_witness :
  run Scenario.env_revoked (getValidTokens Scenario.late "u1")
      (Scenario.world Scenario.task)
  = (inr None, Scenario.world Scenario.task)
  /\ (snd (run Scenario.env_revoked (getValidTokens Scenario.late "u1")
             (Scenario.world Scenario.task))).(tokens) !! "u1" = Some Scenario.row.
Proof.
  apply (refresh_failure_keeps_credential Scenario.env_revoked Scenario.late "u1"
           (Scenario.world Scenario.task) (Scenario.world Scenario.task)
           Scenario.row (HttpError 400 "invalid_grant")).
  - vm_compute. reflexivity.
  - vm_compute. discriminate.
  - vm_compute. reflexivity.
Defined.

(** ** The calendar wrappers *)

Lemma creates_with_call (c : CalendarCall) f (w : World) :
  creates (with_call c f w) = (if is_insert c then S (creates w) else creates w).
Proof.
  unfold creates. simpl. rewrite List.filter_app, length_app. simpl.
  destruct (is_insert c); simpl; lia.
Qed.

Lemma run_createCalendarEvent (env : Env) (rt : Runtime) (te : TaskEvent) (w : World) :
  run env (createCalendarEvent rt te) w =
  match toExternalEvent rt te with
  | inl e => (inl e, w)
  | inr ev =>
      match env.(insert_reply) with
      | InsertFails e => (inl e, with_call (CallInsert ev) (fun m => m) w)
      | InsertReturns None =>
          (inl (JsError "Failed to create calendar event"),
           with_call (CallInsert ev) (fun m => m) w)
      | InsertReturns (Some i) =>
          (if JS.truthy_string i then inr i
           else inl (JsError "Failed to create calendar event"),
           with_call (CallInsert ev) <[i := ev]> w)
      end
  end.
Proof.
  unfold createCalendarEvent. rewrite run_bind, run_lift.
  destruct (toExternalEvent rt te) as [e|ev]; [reflexivity|].
  simpl. destruct (insert_reply env) as [e|[i|]]; simpl; try reflexivity.
  destruct (JS.truthy_string i); reflexivity.
Qed.

Lemma run_updateCalendarEvent (env : Env) (rt : Runtime) (eid : string)
    (te : TaskEvent) (w : World) :
  run env (updateCalendarEvent rt eid te) w =
  match toExternalPatch rt te with
  | inl e => (inl e, w)
  | inr ev => exec env (EventsPatch eid ev) w
  end.
Proof.
  unfold updateCalendarEvent. rewrite run_bind, run_lift.
  destruct (toExternalPatch rt te) as [e|ev]; [reflexivity|].
  unfold call. cbn [run].
  destruct (exec env (EventsPatch eid ev) w) as [[e|[]] w']; reflexivity.
Qed.

Lemma run_deleteCalendarEvent (env : Env) (eid : string) (w : World) :
  run env (deleteCalendarEvent eid) w = exec env (EventsDelete eid) w.
Proof.
  unfold deleteCalendarEvent, call. cbn [run].
  destruct (exec env (EventsDelete eid) w) as [[e|[]] w']; reflexivity.
Qed.

(** A patch or a delete changes neither a table nor the number of creates. *)
Lemma exec_patch_frame (env : Env) (eid : string) (ev : Event) (w : World) :
  let w' := snd (exec env (EventsPatch eid ev) w) in
  tokens w' = tokens w /\ tasks w' = tasks w /\ sync_log w' = sync_log w
  /\ calls w' = (calls w ++ [CallPatch eid ev])%list /\ creates w' = creates w.
Proof.
  simpl. destruct (patch_fault env); [|destruct (events w !! eid)];
    simpl; rewrite ?creates_with_call; simpl; auto.
Qed.

Lemma exec_delete_frame (env : Env) (eid : string) (w : World) :
  let w' := snd (exec env (EventsDelete eid) w) in
  tokens w' = tokens w /\ tasks w' = tasks w /\ sync_log w' = sync_log w
  /\ calls w' = (calls w ++ [CallDelete eid])%list /\ creates w' = creates w.
Proof.
  simpl. destruct (delete_fault env); [|destruct (events w !! eid)];
    simpl; rewrite ?creates_with_call; simpl; auto.
Qed.

(** The service answers not-found for an event it does not hold. *)
Lemma exec_patch_missing (env : Env) (eid : string) (ev : Event) (w : World) :
  env.(patch_fault) = None -> w.(events) !! eid = None ->
  exec env (EventsPatch eid ev) w
  = (inl not_found, with_call (CallPatch eid ev) (fun m => m) w).
Proof. intros Hf Hm. simpl. rewrite Hf, Hm. reflexivity. Qed.

Lemma exec_delete_missing (env : Env) (eid : string) (w : World) :
  env.(delete_fault) = None -> w.(events) !! eid = None ->
  exec env (EventsDelete eid) w
  = (inl not_found, with_call (CallDelete eid) (fun m => m) w).
Proof. intros Hf Hm. simpl. rewrite Hf, Hm. reflexivity. Qed.

(** ** The three branches of [POST] *)

Lemma run_sync_task_create (env : Env) (rt : Runtime) (user tid : string)
    (act : option string) (task : TaskRow) (w : World) :
  JS.truthy task.(google_calendar_event_id) = false ->
  run env (try_catch (sync_task rt user tid act task) on_error) w =
  match run env (createCalendarEvent rt (taskEvent_of task)) w with
  | (inl e, w') => (inr (SyncFailed (exn_string e)), w')
  | (inr eid, w') =>
      (inr (Created eid),
       with_log (log_row user tid eid "create")
         (with_tasks (alter (set_task_event (Some eid) rt.(now)) tid) w'))
  end.
Proof.
  intros Hid. unfold sync_task. rewrite Hid, andb_false_r.
  rewrite run_try_catch, run_bind.
  destruct (run env (createCalendarEvent rt (taskEvent_of task)) w) as [[e|eid] w'];
    reflexivity.
Qed.

Lemma run_sync_task_update (env : Env) (rt : Runtime) (user tid : string)
    (act : option string) (task : TaskRow) (w : World) :
  JS.truthy task.(google_calendar_event_id) = true ->
  act <> Some "delete" ->
  let eid := default "" task.(google_calendar_event_id) in
  run env (try_catch (sync_task rt user tid act task) on_error) w =
  match run env (updateCalendarEvent rt eid (taskEvent_of task)) w with
  | (inl e, w') => (inr (SyncFailed (exn_string e)), w')
  | (inr _, w') => (inr (Updated eid), with_log (log_row user tid eid "update") w')
  end.
Proof.
  intros Hid Hact. unfold sync_task. rewrite Hid.
  destruct (decide (act = Some "delete")) as [Heq|_]; [contradiction|].
  cbn [andb]. rewrite run_try_catch, run_bind.
  destruct (run env (updateCalendarEvent rt _ (taskEvent_of task)) w) as [[e|[]] w'];
    reflexivity.
Qed.

Lemma run_sync_task_delete (env : Env) (rt : Runtime) (user tid : string)
    (task : TaskRow) (w : World) :
  JS.truthy task.(google_calendar_event_id) = true ->
  let eid := default "" task.(google_calendar_event_id) in
  run env (try_catch (sync_task rt user tid (Some "delete") task) on_error) w =
  match run env (deleteCalendarEvent eid) w with
  | (inl e, w') => (inr (SyncFailed (exn_string e)), w')
  | (inr _, w') =>
      (inr Deleted,
       with_log (log_row user tid eid "delete")
         (with_tasks (alter (set_task_event None rt.(now)) tid) w'))
  end.
Proof.
  intros Hid. unfold sync_task. rewrite Hid.
  destruct (decide (Some "delete" = Some "delete")) as [_|Hne]; [|contradiction].
  cbn [andb]. rewrite run_try_catch, run_bind.
  destruct (run env (deleteCalendarEvent _) w) as [[e|[]] w']; reflexivity.
Qed.

(** ** [POST] for an authenticated request that names a task *)

Opaque getValidTokens sync_task.

Lemma run_POST (env : Env) (rt : Runtime) (request : Request) (w : World)
    (user tid : string) (body : Body) :
  authenticated env request user ->
  request.(json) = Some body ->
  body.(taskId) = Some tid ->
  JS.truthy_string tid = true ->
  run env (POST rt request) w =
  match run env (getValidTokens rt user) w with
  | (inr None, w1) => (inr NotConnected, w1)
  | (inr (Some _), w1) =>
      match w1.(tasks) !! tid with
      | None => (inr TaskNotFound, w1)
      | Some task =>
          run env (try_catch (sync_task rt user tid body.(action) task) on_error) w1
      end
  | (inl e, w1) => (inr (SyncFailed (exn_string e)), w1)
  end.
Proof.
  intros [Hauth Huser] Hjson Htid Htruthy.
  unfold POST, POST_body. rewrite Hauth. simpl. rewrite Huser, Hjson. simpl.
  rewrite Htid. simpl. rewrite Htruthy. simpl.
  rewrite run_try_catch, run_bind.
  destruct (run env (getValidTokens rt user) w) as [[e|[row|]] w1]; simpl; try reflexivity.
  destruct (tasks w1 !! tid) as [task|]; simpl; try reflexivity.
  rewrite run_try_catch. reflexivity.
Qed.

(** A request that is not authenticated is answered 401 at once. *)
Lemma run_POST_unauthenticated (env : Env) (rt : Runtime) (request : Request) (w : World) :
  (forall user, ~ authenticated env request user) ->
  run env (POST rt request) w = (inr Unauthorized, w).
Proof.
  intros Hno. unfold POST, POST_body.
  destruct (JS.truthy (authorization request)) eqn:Hauth; simpl; [|reflexivity].
  destruct (getUser env (bearer (default "" (authorization request)))) as [user|] eqn:Hu;
    simpl; [|reflexivity].
  exfalso. apply (Hno user). split; assumption.
Qed.

Lemma authenticated_dec (env : Env) (request : Request) :
  (exists user, authenticated env request user)
  \/ (forall user, ~ authenticated env request user).
Proof.
  unfold authenticated.
  destruct (JS.truthy (authorization request)) eqn:Hauth.
  - destruct (getUser env (bearer (default "" (authorization request)))) as [u|] eqn:Hu.
    + left. exists u. auto.
    + right. intros u [_ H]. discriminate.
  - right. intros u [H _]. discriminate.
Qed.




(** ** Sync: C1, C2, C6 *)



(** The two requests of the scenario: the first creates event [e1], the
    second patches it. *)
Example sync_twice_scenario :
  let w := Scenario.world Scenario.task in
  let w1 := snd (sync (Scenario.env "e1") Scenario.early Scenario.request w) in
  let r2 := fst (sync (Scenario.env "e2") Scenario.late Scenario.request w1) in
  let w2 := snd (sync (Scenario.env "e2") Scenario.late Scenario.request w1) in
  r2 = Updated "e1"
  /\ calls w2 = [CallInsert Scenario.create_body; CallPatch "e1" Scenario.patch_body]
  /\ size (events w2) = 1%nat.
Proof. vm_compute. repeat split; reflexivity. Qed.

(** C2, as stated, fails: the task is linked to event [e1], which the
    calendar no longer holds.  The sync request is answered 500, the task
    keeps the id of the missing event, and the next sync request, to which
    the calendar would grant a create, fails the same way without creating
    anything. *)
Lemma sync_missing_event_errors :
  let w := Scenario.world (Scenario.linked "e1") in
  let r1 := fst (sync (Scenario.env "e2") Scenario.early Scenario.request w) in
  let w1 := snd (sync (Scenario.env "e2") Scenario.early Scenario.request w) in
  let r2 := fst (sync (Scenario.env "e2") Scenario.early Scenario.request w1) in
  let w2 := snd (sync (Scenario.env "e2") Scenario.early Scenario.request w1) in
  events w !! "e1" = None
  /\ r1 = SyncFailed "Error: Not Found" /\ http_status r1 = 500
  /\ event_id_of w1 "t1" = Some "e1"
  /\ r2 = SyncFailed "Error: Not Found"
  /\ event_id_of w2 "t1" = Some "e1"
  /\ creates w2 = 0%nat /\ events w2 = ∅.
Proof. vm_compute. repeat split; reflexivity. Qed.

(** C2, amended: when a sync request reaches the update of a task linked to
    an event that the calendar does not hold, so that the update call reports
    not-found, the request is answered with the 500 failure response.  The
    task keeps its event id, nothing is logged, no create call is sent, and
    the event is still missing afterwards: a later sync request meets the
    same situation. *)
Theorem sync_update_not_found (env : Env) (rt : Runtime) (request : Request)
    (w w0 : World) (user tid eid : string) (body : Body) (task : TaskRow)
    (tk : TokenRow) (ev : Event) :
  authenticated env request user ->
  request.(json) = Some body ->
  body.(taskId) = Some tid ->
  JS.truthy_string tid = true ->
  body.(action) <> Some "delete" ->
  w.(tasks) !! tid = Some task ->
  task.(google_calendar_event_id) = Some eid ->
  JS.truthy_string eid = true ->
  run env (getValidTokens rt user) w = (inr (Some tk), w0) ->
  toExternalPatch rt (taskEvent_of task) = inr ev ->
  env.(patch_fault) = None ->
  w.(events) !! eid = None ->
  let r := fst (sync env rt request w) in
  let w' := snd (sync env rt request w) in
  r = SyncFailed "Error: Not Found"
  /\ http_status r = 500
  /\ calls w' = (calls w ++ [CallPatch eid ev])%list
  /\ event_id_of w' tid = Some eid
  /\ tasks w' = tasks w
  /\ sync_log w' = sync_log w
  /\ creates w' = creates w
  /\ events w' !! eid = None.
Proof.
  intros Hauth Hjson Htid Htruthy Hact Htask Hlink Heid Hg Hev Hfault Hmissing.
  unfold sync. rewrite (run_POST env rt request w user tid body) by assumption.
  pose proof (getValidTokens_frame env rt user w) as F. rewrite Hg in F.
  simpl in F. destruct F as (Ftasks & Flog & Fev & Fcalls).
  rewrite Hg, Ftasks, Htask.
  rewrite run_sync_task_update by (rewrite ?Hlink; simpl; assumption).
  rewrite Hlink. change (default "" (Some eid)) with eid.
  rewrite run_updateCalendarEvent, Hev.
  rewrite exec_patch_missing by (rewrite ?Fev; assumption).
  simpl. unfold event_id_of, creates. simpl.
  rewrite Ftasks, Flog, Fcalls, Fev, Htask, List.filter_app, length_app.
  simpl. rewrite Hlink. repeat split; try reflexivity; try assumption. lia.
Qed.

Lemma sync_update_not_found_witness :
  let w := Scenario.world (Scenario.linked "e1") in
  let r := fst (sync (Scenario.env "e2") Scenario.early Scenario.request w) in
  let w' := snd (sync (Scenario.env "e2") Scenario.early Scenario.request w) in
  r = SyncFailed "Error: Not Found"
  /\ http_status r = 500
  /\ calls w' = (calls w ++ [CallPatch "e1" Scenario.patch_body])%list
  /\ event_id_of w' "t1" = Some "e1"
  /\ tasks w' = tasks w
  /\ sync_log w' = sync_log w
  /\ creates w' = creates w
  /\ events w' !! "e1" = None.
Proof.
  apply (sync_update_not_found (Scenario.env "e2") Scenario.early Scenario.request
           (Scenario.world (Scenario.linked "e1"))
           (Scenario.world (Scenario.linked "e1"))
           "u1" "t1" "e1" {| taskId := Some "t1"; action := None |}
           (Scenario.linked "e1") Scenario.row Scenario.patch_body).
  - split; reflexivity.
  - reflexivity.
  - reflexivity.
  - reflexivity.
  - discriminate.
  - vm_compute. reflexivity.
  - reflexivity.
  - reflexivity.
  - vm_compute. reflexivity.
  - vm_compute. reflexivity.
  - reflexivity.
  - vm_compute. reflexivity.
Defined.

(** C6: when [getValidTokens] yields [null] for the user of a sync request,
    the request is answered with the 401 response that carries [needsAuth],
    the only response that does; the world is left exactly as it was, so no
    calendar call is made and no event id changes. *)
Theorem sync_not_connected (env : Env) (rt : Runtime) (request : Request)
    (w : World) (user tid : string) (body : Body) :
  authenticated env request user ->
  request.(json) = Some body ->
  body.(taskId) = Some tid ->
  JS.truthy_string tid = true ->
  fst (run env (getValidTokens rt user) w) = inr None ->
  sync env rt request w = (NotConnected, w)
  /\ needsAuth (fst (sync env rt request w)) = true
  /\ (forall r, needsAuth r = true -> r = NotConnected)
  /\ calls (snd (sync env rt request w)) = calls w
  /\ forall t, event_id_of (snd (sync env rt request w)) t = event_id_of w t.
Proof.
  intros Hauth Hjson Htid Htruthy Hnull.
  assert (Hsync : sync env rt request w = (NotConnected, w)).
  { unfold sync. rewrite (run_POST env rt request w user tid body) by assumption.
    destruct (run env (getValidTokens rt user) w) as [r w0] eqn:Hg.
    simpl in Hnull. subst r.
    apply getValidTokens_null in Hg. subst w0. reflexivity. }
  rewrite Hsync. simpl. repeat split; try reflexivity.
  intros r Hr. destruct r; simpl in Hr; try discriminate. reflexivity.
Qed.

Lemma sync_not_connected_witness :
  sync (Scenario.env "e1") Scenario.early Scenario.request Scenario.disconnected
  = (NotConnected, Scenario.disconnected)
  /\ needsAuth (fst (sync (Scenario.env "e1") Scenario.early Scenario.request
                       Scenario.disconnected)) = true
  /\ (forall r, needsAuth r = true -> r = NotConnected)
  /\ calls (snd (sync (Scenario.env "e1") Scenario.early Scenario.request
                   Scenario.disconnected)) = calls Scenario.disconnected
  /\ forall t, event_id_of (snd (sync (Scenario.env "e1") Scenario.early
                                   Scenario.request Scenario.disconnected)) t
               = event_id_of Scenario.disconnected t.
Proof.
  apply (sync_not_connected (Scenario.env "e1") Scenario.early Scenario.request
           Scenario.disconnected "u1" "t1" {| taskId := Some "t1"; action := None |}).
  - split; reflexivity.
  - reflexivity.
  - reflexivity.
  - reflexivity.
  - vm_compute. reflexivity.
Defined.

(** ** Unsync: C7 *)

(** [DELETE] for an authenticated request that names a task: it answers
    success and leaves the task without an event id, whatever the calendar
    answers; the only calendar call it can make is the delete of the event
    the task was linked to. *)
Lemma unsync_clears (env : Env) (rt : Runtime) (request : Request) (w : World)
    (user tid : string) :
  authenticated env request user ->
  request.(query_taskId) = Some tid ->
  JS.truthy_string tid = true ->
  let r := fst (unsync env rt request w) in
  let w' := snd (unsync env rt request w) in
  r = Removed
  /\ event_id_of w' tid = None
  /\ (calls w' = calls w
      \/ exists eid, event_id_of w tid = Some eid
                     /\ calls w' = (calls w ++ [CallDelete eid])%list).
Proof.
  intros [Hauth Huser] Hq Htruthy. unfold unsync, DELETE, DELETE_body.
  rewrite Hauth. simpl. rewrite Huser, Hq. simpl. rewrite Htruthy. simpl.
  assert (Hclear : forall w0 : World,
             event_id_of (with_tasks (alter (set_task_event None rt.(now)) tid) w0) tid
             = None).
  { intros w0. unfold event_id_of. simpl. rewrite lookup_alter_eq.
    destruct (tasks w0 !! tid); reflexivity. }
  set (seen := if anon_visible env tid then tasks w !! tid else None).
  destruct (JS.truthy (seen ≫= google_calendar_event_id)) eqn:Hlinked.
  - rewrite run_try_catch, run_bind, run_bind.
    pose proof (getValidTokens_frame env rt user w) as F.
    destruct (getValidTokens_returns env rt user w) as (o & w0 & Hg).
    rewrite Hg in F |- *. simpl in F. destruct F as (Ftasks & Flog & Fev & Fcalls).
    destruct o as [row|]; cbn -[exec event_id_of].
    + pose proof (exec_delete_frame env (default "" (seen ≫= google_calendar_event_id)) w0)
        as D.
      destruct (exec env (EventsDelete _) w0) as [[e|[]] w1]; simpl in D;
        destruct D as (Dtok & Dtasks & Dlog & Dcalls & Dcreates); cbn -[event_id_of];
        (split; [reflexivity|]); (split; [apply Hclear|]); right;
        rewrite Dcalls, Fcalls; unfold seen in *; unfold event_id_of;
        destruct (anon_visible env tid); try discriminate;
        destruct (tasks w !! tid ≫= google_calendar_event_id) as [eid|];
        try discriminate; exists eid; split; reflexivity.
    + split; [reflexivity|]. split; [apply Hclear|]. left. exact Fcalls.
  - cbn -[event_id_of]. split; [reflexivity|]. split; [apply Hclear|]. left. reflexivity.
Qed.

(** X29: an authenticated request to [DELETE /api/calendar/sync] for a task
    is answered with success and leaves the task without an event id,
    whatever the calendar answers to the delete, a not-found for an event
    deleted elsewhere included.  A second such request right after it is
    answered with success as well, makes no calendar call and leaves the
    task without an event id. *)
Theorem unsync_idempotent (env1 env2 : Env) (rt1 rt2 : Runtime) (request : Request)
    (w : World) (user1 user2 tid : string) :
  authenticated env1 request user1 ->
  authenticated env2 request user2 ->
  request.(query_taskId) = Some tid ->
  JS.truthy_string tid = true ->
  let r1 := fst (unsync env1 rt1 request w) in
  let w1 := snd (unsync env1 rt1 request w) in
  let r2 := fst (unsync env2 rt2 request w1) in
  let w2 := snd (unsync env2 rt2 request w1) in
  r1 = Removed /\ is_error r1 = false /\ event_id_of w1 tid = None
  /\ r2 = Removed /\ is_error r2 = false /\ event_id_of w2 tid = None
  /\ calls w2 = calls w1.
Proof.
  intros Hauth1 Hauth2 Hq Htruthy.
  destruct (unsync_clears env1 rt1 request w user1 tid Hauth1 Hq Htruthy)
    as (Hr1 & Hid1 & _).
  destruct (unsync_clears env2 rt2 request (snd (unsync env1 rt1 request w))
              user2 tid Hauth2 Hq Htruthy) as (Hr2 & Hid2 & Hcalls).
  cbv zeta. rewrite Hr1, Hr2. repeat split; try assumption.
  destruct Hcalls as [Hsame|(eid & Hlinked & _)]; [exact Hsame|].
  rewrite Hid1 in Hlinked. discriminate.
Qed.

(** The calendar has already lost the event the task is linked to. *)
Lemma unsync_idempotent_witness :
  let w := Scenario.world (Scenario.linked "e1") in
  let r1 := fst (unsync (Scenario.env "e2") Scenario.early Scenario.request w) in
  let w1 := snd (unsync (Scenario.env "e2") Scenario.early Scenario.request w) in
  let r2 := fst (unsync (Scenario.env "e2") Scenario.late Scenario.request w1) in
  let w2 := snd (unsync (Scenario.env "e2") Scenario.late Scenario.request w1) in
  r1 = Removed /\ is_error r1 = false /\ event_id_of w1 "t1" = None
  /\ r2 = Removed /\ is_error r2 = false /\ event_id_of w2 "t1" = None
  /\ calls w2 = calls w1.
Proof.
  apply (unsync_idempotent (Scenario.env "e2") (Scenario.env "e2")
           Scenario.early Scenario.late Scenario.request
           (Scenario.world (Scenario.linked "e1")) "u1" "u1" "t1").
  - split; reflexivity.
  - split; reflexivity.
  - reflexivity.
  - reflexivity.
Defined.

(** In that scenario the delete call is made and answered not-found. *)
Example unsync_missing_event_scenario :
  let w := Scenario.world (Scenario.linked "e1") in
  events w !! "e1" = None
  /\ exec (Scenario.env "e2") (EventsDelete "e1") w
     = (inl not_found, with_call (CallDelete "e1") (fun m => m) w)
  /\ calls (snd (unsync (Scenario.env "e2") Scenario.early Scenario.request w))
     = [CallDelete "e1"].
Proof. vm_compute. repeat split; reflexivity. Qed.

(** C7 on the delete action of [POST /api/calendar/sync], the other way to
    unsync a task.  The task is linked to event [e1], which the calendar no
    longer holds.  The delete call is not in a [try] of its own there: the
    not-found reaches the outer [catch], the request is answered 500 and the
    task keeps the event id, and a second request fails the same way.  The
    [DELETE] handler, in the same world, answers success and clears the id.
    When the calendar does hold the event, the first request with the delete
    action answers [deleted], and the second one, finding no event id, falls
    through to the create branch and links a new event. *)
Theorem delete_action_fails_on_missing_event :
  let request := {| authorization := Some "Bearer jwt";
                    json := Some {| taskId := Some "t1"; action := Some "delete" |};
                    query_taskId := Some "t1" |} in
  let w := Scenario.world (Scenario.linked "e1") in
  let r1 := fst (sync (Scenario.env "e2") Scenario.early request w) in
  let w1 := snd (sync (Scenario.env "e2") Scenario.early request w) in
  let r2 := fst (sync (Scenario.env "e2") Scenario.early request w1) in
  let w2 := snd (sync (Scenario.env "e2") Scenario.early request w1) in
  let v1 := snd (sync (Scenario.env "e2") Scenario.early request Cases.synced) in
  event_id_of w "t1" = Some "e1" /\ events w !! "e1" = None
  /\ r1 = SyncFailed "Error: Not Found" /\ http_status r1 = 500
  /\ event_id_of w1 "t1" = Some "e1"
  /\ r2 = SyncFailed "Error: Not Found" /\ event_id_of w2 "t1" = Some "e1"
  /\ unsync (Scenario.env "e2") Scenario.early request w
     = (Removed, snd (unsync (Scenario.env "e2") Scenario.early request w))
  /\ event_id_of (snd (unsync (Scenario.env "e2") Scenario.early request w)) "t1" = None
  /\ fst (sync (Scenario.env "e2") Scenario.early request Cases.synced) = Deleted
  /\ event_id_of v1 "t1" = None
  /\ fst (sync (Scenario.env "e2") Scenario.early request v1) = Created "e2"
  /\ event_id_of (snd (sync (Scenario.env "e2") Scenario.early request v1)) "t1"
     = Some "e2".
Proof. vm_compute. repeat split; reflexivity. Qed.

(** The delete action of [POST] is another matter: not-found there is not
    caught, and on a task without an event id the request falls through to
    the create branch. *)
Example sync_delete_action_scenario :
  let delete_request :=
    {| authorization := Some "Bearer jwt";
       json := Some {| taskId := Some "t1"; action := Some "delete" |};
       query_taskId := None |} in
  fst (sync (Scenario.env "e2") Scenario.early delete_request
         (Scenario.world (Scenario.linked "e1")))
  = SyncFailed "Error: Not Found"
  /\ fst (sync (Scenario.env "e2") Scenario.early delete_request
            (Scenario.world Scenario.task))
     = Created "e2".
Proof. vm_compute. split; reflexivity. Qed.

(** ** The mapper: C8, C9 *)



Lemma split_head_prefix (c : ascii) (s : string) :
  exists rest, s = JS.split_head c s +:+ rest.
Proof.
  induction s as [|a s [rest IH]]; simpl.
  - exists "". reflexivity.
  - destruct (Ascii.eqb a c).
    + exists (String a s). reflexivity.
    + exists rest. rewrite IH at 1. reflexivity.
Qed.







Example all_day_scenario :
  JS.split_head "T" "2025-03-10T00:00:00Z" = "2025-03-10".
Proof. reflexivity. Qed.

(** The end of a timed event is [durationMs] after its start. *)
Lemma timed_event_length (rt : Runtime) (date time : string) (d : option Z) (s e : Z) :
  startDateTime rt date time = Some s ->
  endDateTime rt date time d = Some e ->
  e - s = durationMs d.
Proof.
  unfold endDateTime, JSDate.plus. intros ->. simpl.
  unfold JSDate.time_clip. destruct (Z.abs _ <=? _); [|discriminate].
  intros H. injection H as <-. lia.
Qed.

(** The duration is the task's, and 60 minutes without one (or with 0). *)
Lemma durationMs_cases (d : option Z) :
  durationMs d = match d with
                 | Some n => if n =? 0 then 60 * 60000 else n * 60000
                 | None => 60 * 60000
                 end.
Proof.
  unfold durationMs. destruct d as [n|]; simpl; [|reflexivity].
  destruct (n =? 0); simpl; lia.
Qed.

(** When the process runs in the zone of the calendar, the start of a
    timed event reads, in that zone, as the due date and time. *)
Lemma timed_event_start_in_zone (rt : Runtime) (date time : string) (l s : Z) :
  JSDate.parse_wall_clock (formatDateForAllDay date +:+ "T" +:+ time +:+ ":00") = Some l ->
  rt.(local_tza) l = JSDate.Europe_Paris (l - rt.(local_tza) l) ->
  startDateTime rt date time = Some s ->
  JSDate.wall_clock JSDate.Europe_Paris s = l.
Proof.
  unfold startDateTime, JSDate.of_string. intros -> Hzone. simpl.
  unfold JSDate.time_clip. destruct (Z.abs _ <=? _); [|discriminate].
  intros H. injection H as <-. unfold JSDate.wall_clock. rewrite <- Hzone. lia.
Qed.

(** C8 at the task of the specification (2025-03-10, 14:00, 30 minutes,
    priority 4) in a process whose local zone is UTC.  The start is built as
    14:00 UTC and sent with the label [Europe/Paris]; in that zone the
    instant reads 15:00, one hour after the due time.  The end is 30 minutes
    after the start. *)
Theorem timed_event_in_utc_process :
  let task := taskEvent_of Scenario.task in
  let due := 1741615200000 in
  JSDate.parse_wall_clock "2025-03-10T14:00:00" = Some due
  /\ local_tza Scenario.early = JSDate.UTC
  /\ toExternalEvent Scenario.early task
     = inr (eventOf task
              (Some (Timed "2025-03-10T14:00:00.000Z" "Europe/Paris"),
               Some (Timed "2025-03-10T14:30:00.000Z" "Europe/Paris")))
  /\ startDateTime Scenario.early "2025-03-10" "14:00" = Some due
  /\ JSDate.wall_clock JSDate.Europe_Paris due = due + 3600000
  /\ JSDate.wall_clock JSDate.Europe_Paris due <> due
  /\ endDateTime Scenario.early "2025-03-10" "14:00" (Some 30) = Some (due + 30 * 60000).
Proof.
  cbv zeta. repeat split; try (vm_compute; reflexivity).
  vm_compute. discriminate.
Qed.

(** The same task in a process whose local zone is the calendar's: the
    start is 13:00 UTC, which reads 14:00 in [Europe/Paris]. *)
Example timed_event_in_paris_process :
  let rt := {| now := 1000; local_tza := fun l => JSDate.Europe_Paris (l - 3600000) |} in
  toExternalEvent rt (taskEvent_of Scenario.task)
  = inr (eventOf (taskEvent_of Scenario.task)
           (Some (Timed "2025-03-10T13:00:00.000Z" "Europe/Paris"),
            Some (Timed "2025-03-10T13:30:00.000Z" "Europe/Paris")))
  /\ colorId (eventOf (taskEvent_of Scenario.task) (None, None)) = "11"
  /\ ev_status (eventOf (taskEvent_of Scenario.task) (None, None)) = "confirmed".
Proof. vm_compute. repeat split; reflexivity. Qed.

(** ** Two requests in flight: C10 *)

Lemma interleave_app (s1 s2 : list bool) (envA envB : Env)
    (pA pB : Prog Response) (w : World) :
  interleave (s1 ++ s2) envA envB pA pB w =
  let '(pA', pB', w') := interleave s1 envA envB pA pB w in
  interleave s2 envA envB pA' pB' w'.
Proof.
  revert pA pB w. induction s1 as [|[] s1 IH]; intros pA pB w; simpl; [reflexivity| |].
  - destruct (step envA pA w) as [pA' w']. apply IH.
  - destruct (step envB pB w) as [pB' w']. apply IH.
Qed.

Lemma interleave_first (n : nat) (envA envB : Env) (pA pB : Prog Response) (w : World) :
  interleave (repeat true n) envA envB pA pB w =
  let '(pA', w') := steps n envA pA w in (pA', pB, w').
Proof.
  revert pA w. induction n as [|n IH]; intros pA w; simpl; [reflexivity|].
  destruct (step envA pA w) as [pA' w']. apply IH.
Qed.

Lemma interleave_second (n : nat) (envA envB : Env) (pA pB : Prog Response) (w : World) :
  interleave (repeat false n) envA envB pA pB w =
  let '(pB', w') := steps n envB pB w in (pA, pB', w').
Proof.
  revert pB w. induction n as [|n IH]; intros pB w; simpl; [reflexivity|].
  destruct (step envB pB w) as [pB' w']. apply IH.
Qed.

(** Stepping a program alone reaches what [run] computes. *)
Lemma steps_run {A} (env : Env) (p : Prog A) (w : World) :
  exists n, steps n env p w =
            (match fst (run env p w) with
             | inr a => Ret a
             | inl e => Throw e
             end, snd (run env p w)).
Proof.
  revert w. induction p as [a | e | R op k IH]; intros w.
  - exists O. reflexivity.
  - exists O. reflexivity.
  - simpl. destruct (exec env op w) as [r w'] eqn:Hexec.
    destruct (IH r w') as [n Hn]. exists (S n). simpl. rewrite Hexec. exact Hn.
Qed.

Transparent getValidTokens.

(** The first three awaited calls of [POST] when the stored token is still
    valid: the user, the credential row, the task row.  Nothing is written,
    and what remains to run holds the task row as it was read. *)
Lemma steps_read (env : Env) (rt : Runtime) (request : Request) (w : World)
    (user tid : string) (body : Body) (row : TokenRow) (task : TaskRow) :
  authenticated env request user ->
  request.(json) = Some body ->
  body.(taskId) = Some tid ->
  JS.truthy_string tid = true ->
  w.(tokens) !! user = Some row ->
  rt.(now) < row.(expires_at) ->
  w.(tasks) !! tid = Some task ->
  steps 3 env (POST rt request) w
  = (try_catch (sync_task rt user tid body.(action) task) on_error, w).
Proof.
  intros [Hauth Huser] Hjson Htid Htruthy Hrow Hfresh Htask.
  apply Z.leb_gt in Hfresh.
  unfold POST, POST_body, getValidTokens. rewrite Hauth. simpl.
  rewrite Huser, Hjson. simpl. rewrite Htid. simpl. rewrite Htruthy. simpl.
  rewrite Hrow. simpl. rewrite Hfresh. simpl. rewrite Htask. reflexivity.
Qed.

Transparent sync_task.

(** The last three awaited calls of a request that read its task without
    an event id: the create call, the write of the event id, the log entry.
    They run the same in any world: the task row is not read again and the
    write of the event id is an update by key alone. *)
Lemma steps_create (env : Env) (rt : Runtime) (user tid : string)
    (act : option string) (task : TaskRow) (ev : Event) (eid : string) (w : World) :
  JS.truthy task.(google_calendar_event_id) = false ->
  toExternalEvent rt (taskEvent_of task) = inr ev ->
  env.(insert_reply) = InsertReturns (Some eid) ->
  JS.truthy_string eid = true ->
  steps 3 env (try_catch (sync_task rt user tid act task) on_error) w
  = (Ret (Created eid),
     with_log (log_row user tid eid "create")
       (with_tasks (alter (set_task_event (Some eid) rt.(now)) tid)
          (with_call (CallInsert ev) <[eid := ev]> w))).
Proof.
  intros Hid Hev Hreply Heid.
  unfold sync_task, createCalendarEvent. rewrite Hid, andb_false_r, Hev.
  simpl. rewrite Hreply. simpl. rewrite Heid. reflexivity.
Qed.

Opaque getValidTokens sync_task.

(** C10, as stated, fails: two sync requests for the task of the scenario,
    which has no event id, are interleaved so that each reads the task
    before the other writes it.  Both take the create branch, the calendar
    holds two events, and the task row ends with the id written last. *)
Lemma concurrent_syncs_create_twice :
  let w := Scenario.world Scenario.task in
  let final := interleave alternating (Scenario.env "e1") (Scenario.env "e2")
                 (POST Scenario.early Scenario.request)
                 (POST Scenario.early Scenario.request) w in
  event_id_of w "t1" = None
  /\ fst (fst final) = Ret (Created "e1")
  /\ snd (fst final) = Ret (Created "e2")
  /\ creates (snd final) = 2%nat
  /\ size (events (snd final)) = 2%nat
  /\ event_id_of (snd final) "t1" = Some "e2".
Proof. vm_compute. repeat split; reflexivity. Qed.

(** C10, amended: when two sync requests for the same task without an
    event id overlap, the second running from start to end between the
    first one's read of the task and its create call, both take the create
    branch.  The calendar receives two create calls and holds both events;
    the task row ends with the event id of the request that wrote last, the
    write being an update by task id alone, not a compare-and-set. *)
Theorem overlapping_syncs_both_create (envA envB : Env) (rtA rtB : Runtime)
    (request : Request) (w : World) (userA userB tid eA eB : string) (body : Body)
    (rowA rowB : TokenRow) (task : TaskRow) (evA evB : Event) :
  authenticated envA request userA ->
  authenticated envB request userB ->
  request.(json) = Some body ->
  body.(taskId) = Some tid ->
  JS.truthy_string tid = true ->
  w.(tokens) !! userA = Some rowA -> rtA.(now) < rowA.(expires_at) ->
  w.(tokens) !! userB = Some rowB -> rtB.(now) < rowB.(expires_at) ->
  w.(tasks) !! tid = Some task ->
  JS.truthy task.(google_calendar_event_id) = false ->
  toExternalEvent rtA (taskEvent_of task) = inr evA ->
  toExternalEvent rtB (taskEvent_of task) = inr evB ->
  envA.(insert_reply) = InsertReturns (Some eA) -> JS.truthy_string eA = true ->
  envB.(insert_reply) = InsertReturns (Some eB) -> JS.truthy_string eB = true ->
  eA <> eB ->
  let final := interleave overlapping envA envB (POST rtA request) (POST rtB request) w in
  fst (fst final) = Ret (Created eA)
  /\ snd (fst final) = Ret (Created eB)
  /\ creates (snd final) = S (S (creates w))
  /\ events (snd final) !! eA = Some evA
  /\ events (snd final) !! eB = Some evB
  /\ event_id_of (snd final) tid = Some eA.
Proof.
  intros HauthA HauthB Hjson Htid Htruthy HrowA HfreshA HrowB HfreshB Htask Hid
         HevA HevB HreplyA HeA HreplyB HeB Hne.
  change overlapping
    with (repeat true 3 ++ (repeat false 3 ++ repeat false 3) ++ repeat true 3)%list.
  cbv zeta. rewrite interleave_app, interleave_first.
  rewrite (steps_read envA rtA request w userA tid body rowA task) by assumption.
  cbv beta iota zeta. rewrite interleave_app, interleave_app, interleave_second.
  rewrite (steps_read envB rtB request w userB tid body rowB task) by assumption.
  cbv beta iota zeta. rewrite interleave_second.
  rewrite (steps_create envB rtB userB tid (action body) task evB eB) by assumption.
  cbv beta iota zeta. rewrite interleave_first.
  rewrite (steps_create envA rtA userA tid (action body) task evA eA) by assumption.
  unfold creates, event_id_of. simpl.
  rewrite !List.filter_app, !length_app. simpl.
  rewrite lookup_insert_eq, lookup_insert_ne, lookup_insert_eq by exact Hne.
  rewrite lookup_alter_eq, lookup_alter_eq, Htask. simpl.
  repeat split; try reflexivity. lia.
Qed.

Lemma overlapping_syncs_both_create_witness :
  let w := Scenario.world Scenario.task in
  let final := interleave overlapping (Scenario.env "e1") (Scenario.env "e2")
                 (POST Scenario.early Scenario.request)
                 (POST Scenario.early Scenario.request) w in
  fst (fst final) = Ret (Created "e1")
  /\ snd (fst final) = Ret (Created "e2")
  /\ creates (snd final) = S (S (creates w))
  /\ events (snd final) !! "e1" = Some Scenario.create_body
  /\ events (snd final) !! "e2" = Some Scenario.create_body
  /\ event_id_of (snd final) "t1" = Some "e1".
Proof.
  apply (overlapping_syncs_both_create (Scenario.env "e1") (Scenario.env "e2")
           Scenario.early Scenario.early Scenario.request
           (Scenario.world Scenario.task) "u1" "u1" "t1" "e1" "e2"
           {| taskId := Some "t1"; action := None |}
           Scenario.row Scenario.row Scenario.task
           Scenario.create_body Scenario.create_body).
  - split; reflexivity.
  - split; reflexivity.
  - reflexivity.
  - reflexivity.
  - reflexivity.
  - vm_compute. reflexivity.
  - vm_compute. reflexivity.
  - vm_compute. reflexivity.
  - vm_compute. reflexivity.
  - vm_compute. reflexivity.
  - reflexivity.
  - vm_compute. reflexivity.
  - vm_compute. reflexivity.
  - reflexivity.
  - reflexivity.
  - reflexivity.
  - reflexivity.
  - discriminate.
Defined.

(** * Further properties of the handlers *)

(** ** Every outcome of a sync request *)

Lemma run_POST_no_body (env : Env) (rt : Runtime) (request : Request) (w : World)
    (user : string) :
  authenticated env request user ->
  request.(json) = None ->
  exists d, run env (POST rt request) w = (inr (SyncFailed d), w).
Proof.
  intros [Hauth Huser] Hjson. unfold POST, POST_body.
  rewrite Hauth. simpl. rewrite Huser, Hjson. simpl. eauto.
Qed.

Lemma run_POST_no_task_id (env : Env) (rt : Runtime) (request : Request) (w : World)
    (user : string) (body : Body) :
  authenticated env request user ->
  request.(json) = Some body ->
  JS.truthy body.(taskId) = false ->
  run env (POST rt request) w = (inr TaskIdRequired, w).
Proof.
  intros [Hauth Huser] Hjson Hid. unfold POST, POST_body.
  rewrite Hauth. simpl. rewrite Huser, Hjson. simpl. rewrite Hid. reflexivity.
Qed.

Lemma truthy_some (o : option string) :
  JS.truthy o = true -> exists s, o = Some s /\ JS.truthy_string s = true.
Proof. destruct o as [s|]; simpl; [eauto|discriminate]. Qed.

Lemma sync_outcome (env : Env) (rt : Runtime) (request : Request) (w : World) :
  sync_post rt (request.(json) ≫= taskId) w
    (fst (sync env rt request w)) (snd (sync env rt request w)).
Proof.
  unfold sync.
  destruct (authenticated_dec env request) as [[user Hauth]|Hno].
  2:{ rewrite run_POST_unauthenticated by exact Hno. simpl. auto. }
  destruct (json request) as [body|] eqn:Hjson.
  2:{ destruct (run_POST_no_body env rt request w user Hauth Hjson) as [d ->].
      simpl. auto. }
  destruct (JS.truthy (taskId body)) eqn:Hid.
  2:{ rewrite (run_POST_no_task_id env rt request w user body) by assumption.
      simpl. auto. }
  destruct (truthy_some _ Hid) as (tid & Htid & Htruthy).
  rewrite (run_POST env rt request w user tid body) by assumption.
  cbn [mbind option_bind]. rewrite Htid.
  pose proof (getValidTokens_frame env rt user w) as F.
  destruct (getValidTokens_returns env rt user w) as (o & w0 & Hg).
  rewrite Hg in F |- *. simpl in F. destruct F as (Ftasks & Flog & Fev & Fcalls).
  destruct o as [row|]; [|simpl; auto].
  destruct (tasks w0 !! tid) as [task|] eqn:Htask; [|simpl; auto].
  assert (Hevid : event_id_of w tid = google_calendar_event_id task).
  { unfold event_id_of. rewrite <- Ftasks, Htask. reflexivity. }
  assert (Hsome : is_Some (tasks w !! tid)) by (rewrite <- Ftasks, Htask; eauto).
  assert (Hlinked : forall c, JS.truthy (google_calendar_event_id task) = true ->
             tasks w0 = tasks w /\ sync_log w0 = sync_log w
             /\ (calls (with_call c (fun m => m) w0) = calls w
                 \/ exists c', calls (with_call c (fun m => m) w0) = (calls w ++ [c'])%list
                               /\ (is_insert c' = true
                                   \/ exists tid', Some tid = Some tid'
                                                   /\ JS.truthy (event_id_of w tid') = true))).
  { intros c Hl. split; [exact Ftasks|]. split; [exact Flog|]. right. exists c.
    simpl. rewrite Fcalls. split; [reflexivity|]. right. exists tid.
    rewrite Hevid. auto. }
  assert (Hinsert : forall ev f,
             tasks w0 = tasks w /\ sync_log w0 = sync_log w
             /\ (calls (with_call (CallInsert ev) f w0) = calls w
                 \/ exists c', calls (with_call (CallInsert ev) f w0) = (calls w ++ [c'])%list
                               /\ (is_insert c' = true
                                   \/ exists tid', Some tid = Some tid'
                                                   /\ JS.truthy (event_id_of w tid') = true))).
  { intros ev f. split; [exact Ftasks|]. split; [exact Flog|]. right.
    exists (CallInsert ev). simpl. rewrite Fcalls. auto. }
  destruct (JS.truthy (google_calendar_event_id task)) eqn:Hlink.
  - destruct (truthy_some _ Hlink) as (eid & Heid & Heidt).
    destruct (decide (action body = Some "delete")) as [Hdel|Hact].
    + rewrite Hdel, run_sync_task_delete by exact Hlink.
      rewrite Heid. change (default "" (Some eid)) with eid.
      rewrite run_deleteCalendarEvent. simpl.
      destruct (delete_fault env) as [e|]; [apply Hlinked; reflexivity|].
      destruct (events w0 !! eid) as [old|] eqn:Hold; [|apply Hlinked; reflexivity].
      simpl. exists user, tid, eid. rewrite Hevid, Heid, Ftasks, Flog, Fev, Fcalls.
      rewrite <- Fev, Hold. repeat split; eauto.
    + rewrite run_sync_task_update by assumption.
      rewrite Heid. change (default "" (Some eid)) with eid.
      rewrite run_updateCalendarEvent.
      destruct (toExternalPatch rt (taskEvent_of task)) as [e|ev]; [simpl; auto|].
      simpl. destruct (patch_fault env) as [e|]; [apply Hlinked; reflexivity|].
      destruct (events w0 !! eid) as [old|] eqn:Hold; [|apply Hlinked; reflexivity].
      simpl. exists user, tid, ev, old. rewrite Hevid, Heid, Flog, Fcalls.
      rewrite <- Fev, Hold. repeat split; eauto.
  - rewrite run_sync_task_create by exact Hlink. rewrite run_createCalendarEvent.
    destruct (toExternalEvent rt (taskEvent_of task)) as [e|ev]; [simpl; auto|].
    destruct (insert_reply env) as [e|[i|]]; try apply Hinsert.
    destruct (JS.truthy_string i) eqn:Hi; [|apply Hinsert].
    simpl. exists user, tid, ev. rewrite Hevid, Hlink, Ftasks, Flog, Fev, Fcalls.
    repeat split; eauto.
Qed.

(** ** Requests that are turned away *)

Lemma run_DELETE_unauthenticated (env : Env) (rt : Runtime) (request : Request) (w : World) :
  (forall user, ~ authenticated env request user) ->
  run env (DELETE rt request) w = (inr Unauthorized, w).
Proof.
  intros Hno. unfold DELETE, DELETE_body.
  destruct (JS.truthy (authorization request)) eqn:Hauth; simpl; [|reflexivity].
  destruct (getUser env (bearer (default "" (authorization request)))) as [user|] eqn:Hu;
    simpl; [|reflexivity].
  exfalso. apply (Hno user). split; assumption.
Qed.

(** X1: a request without an authorization header, or whose bearer token
    the auth service does not map to a user, is answered 401 by both
    handlers, and nothing is read or written after the auth check: the world
    is unchanged. *)
Theorem handlers_reject_unauthenticated (env : Env) (rt : Runtime)
    (request : Request) (w : World) :
  (forall user, ~ authenticated env request user) ->
  sync env rt request w = (Unauthorized, w)
  /\ unsync env rt request w = (Unauthorized, w).
Proof.
  intros Hno. unfold sync, unsync.
  rewrite run_POST_unauthenticated, run_DELETE_unauthenticated by exact Hno.
  split; reflexivity.
Qed.

Lemma handlers_reject_unauthenticated_witness :
  let request := {| authorization := Some "Bearer forged";
                    json := Some {| taskId := Some "t1"; action := None |};
                    query_taskId := Some "t1" |} in
  sync (Scenario.env "e1") Scenario.early request (Scenario.world Scenario.task)
  = (Unauthorized, Scenario.world Scenario.task)
  /\ unsync (Scenario.env "e1") Scenario.early request (Scenario.world Scenario.task)
     = (Unauthorized, Scenario.world Scenario.task).
Proof.
  apply (handlers_reject_unauthenticated (Scenario.env "e1") Scenario.early).
  intros user [_ H]. vm_compute in H. discriminate.
Defined.

(** X2: an authenticated request that names no task (no [taskId], or an
    empty one) is answered 400 by both handlers before the credentials are
    looked at: the world is unchanged, so no token is refreshed. *)
Theorem handlers_require_task_id (env : Env) (rt : Runtime) (request : Request)
    (w : World) (user : string) (body : Body) :
  authenticated env request user ->
  request.(json) = Some body ->
  JS.truthy body.(taskId) = false ->
  JS.truthy request.(query_taskId) = false ->
  sync env rt request w = (TaskIdRequired, w)
  /\ unsync env rt request w = (TaskIdRequired, w).
Proof.
  intros Hauth Hjson Hid Hq. unfold sync, unsync.
  rewrite (run_POST_no_task_id env rt request w user body) by assumption.
  split; [reflexivity|].
  destruct Hauth as [Hauth Huser]. unfold DELETE, DELETE_body.
  rewrite Hauth. simpl. rewrite Huser. simpl. rewrite Hq. reflexivity.
Qed.

Lemma handlers_require_task_id_witness :
  let request := {| authorization := Some "Bearer jwt";
                    json := Some {| taskId := Some ""; action := None |};
                    query_taskId := None |} in
  sync (Scenario.env "e1") Scenario.late request (Scenario.world Scenario.task)
  = (TaskIdRequired, Scenario.world Scenario.task)
  /\ unsync (Scenario.env "e1") Scenario.late request (Scenario.world Scenario.task)
     = (TaskIdRequired, Scenario.world Scenario.task).
Proof.
  apply (handlers_require_task_id (Scenario.env "e1") Scenario.late _ _ "u1"
           {| taskId := Some ""; action := None |}).
  - split; reflexivity.
  - reflexivity.
  - reflexivity.
  - reflexivity.
Defined.

(** X3: a sync request for a task that the store does not hold is answered
    404, or 401 with [needsAuth] when the user has no usable credential, the
    credential check coming first.  No calendar call is made and no task or
    log row is written. *)
Theorem sync_unknown_task (env : Env) (rt : Runtime) (request : Request)
    (w : World) (user tid : string) (body : Body) :
  authenticated env request user ->
  request.(json) = Some body ->
  body.(taskId) = Some tid ->
  JS.truthy_string tid = true ->
  w.(tasks) !! tid = None ->
  let r := fst (sync env rt request w) in
  let w' := snd (sync env rt request w) in
  r = (if fst (run env (getValidTokens rt user) w) is inr (Some _)
       then TaskNotFound else NotConnected)
  /\ tasks w' = tasks w /\ sync_log w' = sync_log w
  /\ events w' = events w /\ calls w' = calls w.
Proof.
  intros Hauth Hjson Htid Htruthy Hnone. unfold sync.
  rewrite (run_POST env rt request w user tid body) by assumption.
  pose proof (getValidTokens_frame env rt user w) as F.
  destruct (getValidTokens_returns env rt user w) as (o & w0 & Hg).
  rewrite Hg in F |- *. simpl in F. destruct F as (Ftasks & Flog & Fev & Fcalls).
  destruct o as [row|]; simpl; [|auto].
  rewrite Ftasks, Hnone. simpl. auto.
Qed.

Lemma sync_unknown_task_witness :
  let request := {| authorization := Some "Bearer jwt";
                    json := Some {| taskId := Some "t9"; action := None |};
                    query_taskId := None |} in
  let w := Scenario.world Scenario.task in
  let r := fst (sync (Scenario.env "e1") Scenario.early request w) in
  let w' := snd (sync (Scenario.env "e1") Scenario.early request w) in
  r = (if fst (run (Scenario.env "e1") (getValidTokens Scenario.early "u1") w)
         is inr (Some _) then TaskNotFound else NotConnected)
  /\ tasks w' = tasks w /\ sync_log w' = sync_log w
  /\ events w' = events w /\ calls w' = calls w.
Proof.
  apply (sync_unknown_task (Scenario.env "e1") Scenario.early _ _ "u1" "t9"
           {| taskId := Some "t9"; action := None |}).
  - split; reflexivity.
  - reflexivity.
  - reflexivity.
  - reflexivity.
  - vm_compute. reflexivity.
Defined.

(** ** What a sync request leaves behind *)

(** X4: a sync request appends exactly one row to the sync log when it
    answers 200, a row with status [success] whose action and event id are
    those of the response; when it answers an error, the log is unchanged:
    failures are never logged. *)
Theorem sync_logs_success_only (env : Env) (rt : Runtime) (request : Request) (w : World) :
  let r := fst (sync env rt request w) in
  let w' := snd (sync env rt request w) in
  if is_error r then sync_log w' = sync_log w
  else exists row,
      sync_log w' = (sync_log w ++ [row])%list
      /\ row.(log_status) = "success"
      /\ row.(log_task_id) = request.(json) ≫= taskId
      /\ match r with
         | Created eid => row.(log_action) = "create" /\ row.(log_event_id) = Some eid
         | Updated eid => row.(log_action) = "update" /\ row.(log_event_id) = Some eid
         | _ => row.(log_action) = "delete" /\ row.(log_event_id) = event_id_of w (default "" row.(log_task_id))
         end.
Proof.
  cbv zeta. pose proof (sync_outcome env rt request w) as H.
  destruct (fst (sync env rt request w)) as [| | | | |eid|eid|d| |]; simpl in H |- *;
    try (destruct H as (H1 & H2 & _); exact H2); try contradiction.
  - destruct H as (user & tid & eid & Hn & Hid & _ & _ & Hlog & _).
    eexists. split; [exact Hlog|]. simpl. rewrite Hn, Hid. auto.
  - destruct H as (user & tid & ev & old & Hn & _ & _ & _ & Hlog & _).
    eexists. split; [exact Hlog|]. simpl. rewrite Hn. auto.
  - destruct H as (user & tid & ev & Hn & _ & _ & _ & _ & Hlog & _).
    eexists. split; [exact Hlog|]. simpl. rewrite Hn. auto.
Qed.

(** X5: a sync request makes at most one call to the calendar, and at most
    one create. *)
Theorem sync_calls_calendar_at_most_once (env : Env) (rt : Runtime)
    (request : Request) (w : World) :
  let w' := snd (sync env rt request w) in
  (exists l, calls w' = (calls w ++ l)%list /\ (length l <= 1)%nat)
  /\ (creates w' <= S (creates w))%nat.
Proof.
  cbv zeta. pose proof (sync_outcome env rt request w) as H.
  assert (Hl : exists l, calls (snd (sync env rt request w)) = (calls w ++ l)%list
                         /\ (length l <= 1)%nat).
  { destruct (fst (sync env rt request w)) as [| | | | |eid|eid|d| |]; simpl in H;
      try contradiction;
      try (destruct H as (_ & _ & _ & Hc); exists []; rewrite Hc, app_nil_r;
           split; [reflexivity|simpl; lia]).
    - destruct H as (user & tid & eid & _ & _ & _ & _ & _ & _ & _ & Hc).
      eexists. split; [exact Hc|simpl; lia].
    - destruct H as (user & tid & ev & old & _ & _ & _ & _ & _ & _ & _ & Hc).
      eexists. split; [exact Hc|simpl; lia].
    - destruct H as (user & tid & ev & _ & _ & _ & _ & _ & _ & _ & Hc).
      eexists. split; [exact Hc|simpl; lia].
    - destruct H as (_ & _ & [Hc|(c & Hc & _)]).
      + exists []. rewrite Hc, app_nil_r. split; [reflexivity|simpl; lia].
      + eexists. split; [exact Hc|simpl; lia]. }
  split; [exact Hl|].
  destruct Hl as (l & Hc & Hlen). unfold creates. rewrite Hc, List.filter_app, length_app.
  destruct l as [|c [|c' l]]; simpl in *; try lia.
  destruct (is_insert c); simpl; lia.
Qed.

(** X6: a sync request neither adds nor removes a task row, and changes no
    column of a task other than [google_calendar_event_id] and
    [updated_at]; rows of tasks other than the one named are left as they
    are. *)
Theorem sync_keeps_task_data (env : Env) (rt : Runtime) (request : Request)
    (w : World) (t : string) :
  let w' := snd (sync env rt request w) in
  match tasks w !! t, tasks w' !! t with
  | Some a, Some b => same_task_data a b /\ (request.(json) ≫= taskId <> Some t -> b = a)
  | None, None => True
  | _, _ => False
  end.
Proof.
  cbv zeta. pose proof (sync_outcome env rt request w) as H.
  assert (Hsame : match tasks w !! t, tasks w !! t with
                  | Some a, Some b =>
                      same_task_data a b /\ (request.(json) ≫= taskId <> Some t -> b = a)
                  | None, None => True
                  | _, _ => False
                  end).
  { destruct (tasks w !! t); [|exact I]. unfold same_task_data. auto 10. }
  assert (Halter : forall eid tid,
             request.(json) ≫= taskId = Some tid ->
             match tasks w !! t, alter (set_task_event eid rt.(now)) tid (tasks w) !! t with
             | Some a, Some b =>
                 same_task_data a b /\ (request.(json) ≫= taskId <> Some t -> b = a)
             | None, None => True
             | _, _ => False
             end).
  { intros eid tid Hn. destruct (decide (tid = t)) as [->|Hne].
    - rewrite lookup_alter_eq. destruct (tasks w !! t); simpl; [|exact I].
      unfold same_task_data. simpl. split; [auto 10|]. intros Hx. contradiction.
    - rewrite lookup_alter_ne by exact Hne. exact Hsame. }
  destruct (fst (sync env rt request w)) as [| | | | |eid|eid|d| |]; simpl in H;
    try contradiction;
    try (destruct H as (Ht & _); rewrite Ht; exact Hsame).
  - destruct H as (user & tid & eid & Hn & _ & _ & Ht & _). rewrite Ht. apply Halter, Hn.
  - destruct H as (user & tid & ev & old & _ & _ & _ & Ht & _). rewrite Ht. exact Hsame.
  - destruct H as (user & tid & ev & Hn & _ & _ & _ & Ht & _). rewrite Ht. apply Halter, Hn.
Qed.

(** X7: for the task named in a sync request, a [created] or [updated]
    answer means the task now holds the event id of the answer and the
    calendar holds an event under that id; a [deleted] answer means the task
    holds no event id and the calendar no longer holds the event; any other
    answer means the task's event id is what it was. *)
Theorem sync_link_follows_response (env : Env) (rt : Runtime) (request : Request)
    (w : World) (body : Body) (tid : string) :
  request.(json) = Some body ->
  body.(taskId) = Some tid ->
  let r := fst (sync env rt request w) in
  let w' := snd (sync env rt request w) in
  match r with
  | Created eid | Updated eid =>
      event_id_of w' tid = Some eid /\ is_Some (events w' !! eid)
  | Deleted =>
      event_id_of w' tid = None
      /\ exists eid, event_id_of w tid = Some eid /\ events w' !! eid = None
  | _ => event_id_of w' tid = event_id_of w tid
  end.
Proof.
  intros Hjson Htid. cbv zeta. pose proof (sync_outcome env rt request w) as H.
  rewrite Hjson in H. cbn [mbind option_bind] in H. rewrite Htid in H.
  unfold event_id_of in *.
  destruct (fst (sync env rt request w)) as [| | | | |eid|eid|d| |]; simpl in H;
    try contradiction;
    try (destruct H as (Ht & _); rewrite Ht; reflexivity).
  - destruct H as (user & tid' & eid & Hn & Hid & _ & Ht & _ & _ & Hev & _).
    injection Hn as <-. rewrite Ht, Hev, lookup_alter_eq.
    split; [destruct (tasks w !! tid); reflexivity|].
    exists eid. split; [exact Hid|apply lookup_delete_eq].
  - destruct H as (user & tid' & ev & old & Hn & Hid & _ & Ht & _ & _ & Hev & _).
    injection Hn as <-. rewrite Ht, Hev, lookup_insert_eq. split; [exact Hid|eauto].
  - destruct H as (user & tid' & ev & Hn & _ & [task Htask] & _ & Ht & _ & Hev & _).
    injection Hn as <-. rewrite Ht, Hev, lookup_alter_eq, lookup_insert_eq, Htask.
    simpl. eauto.
Qed.

Lemma sync_link_follows_response_witness :
  let w := Scenario.world Scenario.task in
  let r := fst (sync (Scenario.env "e1") Scenario.early Scenario.request w) in
  let w' := snd (sync (Scenario.env "e1") Scenario.early Scenario.request w) in
  match r with
  | Created eid | Updated eid =>
      event_id_of w' "t1" = Some eid /\ is_Some (events w' !! eid)
  | Deleted =>
      event_id_of w' "t1" = None
      /\ exists eid, event_id_of w "t1" = Some eid /\ events w' !! eid = None
  | _ => event_id_of w' "t1" = event_id_of w "t1"
  end.
Proof.
  apply (sync_link_follows_response (Scenario.env "e1") Scenario.early Scenario.request
           (Scenario.world Scenario.task) {| taskId := Some "t1"; action := None |} "t1").
  - reflexivity.
  - reflexivity.
Defined.

(** X8: the [action] of a sync request matters only for a task that holds
    an event id.  For a task without one, a request with the [delete]
    action does what a plain sync request does: it creates an event and
    links it. *)
Theorem sync_action_ignored_without_link (env : Env) (rt : Runtime)
    (auth q q' : option string) (tid : string) (a a' : option string) (w : World) :
  JS.truthy (event_id_of w tid) = false ->
  sync env rt {| authorization := auth;
                 json := Some {| taskId := Some tid; action := a |};
                 query_taskId := q |} w
  = sync env rt {| authorization := auth;
                   json := Some {| taskId := Some tid; action := a' |};
                   query_taskId := q' |} w.
Proof.
  intros Hfree. unfold sync.
  set (r1 := {| authorization := auth;
                json := Some {| taskId := Some tid; action := a |};
                query_taskId := q |}).
  set (r2 := {| authorization := auth;
                json := Some {| taskId := Some tid; action := a' |};
                query_taskId := q' |}).
  destruct (authenticated_dec env r1) as [[user Hauth]|Hno].
  2:{ rewrite !run_POST_unauthenticated; [reflexivity|exact Hno|exact Hno]. }
  assert (Hauth2 : authenticated env r2 user) by exact Hauth.
  destruct (JS.truthy_string tid) eqn:Htruthy.
  2:{ rewrite (run_POST_no_task_id env rt r1 w user {| taskId := Some tid; action := a |}),
        (run_POST_no_task_id env rt r2 w user {| taskId := Some tid; action := a' |});
        try reflexivity; try assumption. }
  rewrite (run_POST env rt r1 w user tid {| taskId := Some tid; action := a |}),
    (run_POST env rt r2 w user tid {| taskId := Some tid; action := a' |});
    try reflexivity; try assumption.
  pose proof (getValidTokens_frame env rt user w) as F.
  destruct (run env (getValidTokens rt user) w) as [[e|[row|]] w0]; simpl in F;
    destruct F as (Ftasks & _); try reflexivity.
  destruct (tasks w0 !! tid) as [task|] eqn:Htask; [|reflexivity].
  assert (Hid : JS.truthy (google_calendar_event_id task) = false).
  { unfold event_id_of in Hfree. rewrite <- Ftasks, Htask in Hfree. exact Hfree. }
  rewrite !run_sync_task_create by exact Hid. reflexivity.
Qed.

Lemma sync_action_ignored_without_link_witness :
  sync (Scenario.env "e1") Scenario.early
    {| authorization := Some "Bearer jwt";
       json := Some {| taskId := Some "t1"; action := Some "delete" |};
       query_taskId := None |} (Scenario.world Scenario.task)
  = sync (Scenario.env "e1") Scenario.early
      {| authorization := Some "Bearer jwt";
         json := Some {| taskId := Some "t1"; action := None |};
         query_taskId := None |} (Scenario.world Scenario.task).
Proof.
  apply (sync_action_ignored_without_link (Scenario.env "e1") Scenario.early
           (Some "Bearer jwt") None None "t1" (Some "delete") None).
  vm_compute. reflexivity.
Defined.

(** ** Every outcome of an unsync request *)

Lemma unsync_outcome (env : Env) (rt : Runtime) (request : Request) (w : World) :
  unsync_post rt request.(query_taskId) w
    (fst (unsync env rt request w)) (snd (unsync env rt request w)).
Proof.
  unfold unsync.
  destruct (authenticated_dec env request) as [[user [Hauth Huser]]|Hno].
  2:{ rewrite run_DELETE_unauthenticated by exact Hno. simpl. reflexivity. }
  unfold DELETE, DELETE_body. rewrite Hauth. simpl. rewrite Huser. simpl.
  destruct (JS.truthy (query_taskId request)) eqn:Hq; simpl; [|reflexivity].
  destruct (truthy_some _ Hq) as (tid & Htid & Htruthy). rewrite Htid.
  change (default "" (Some tid)) with tid.
  set (seen := if anon_visible env tid then tasks w !! tid else None).
  destruct (JS.truthy (seen ≫= google_calendar_event_id)) eqn:Hlinked.
  - rewrite run_try_catch, run_bind, run_bind.
    pose proof (getValidTokens_frame env rt user w) as F.
    destruct (getValidTokens_returns env rt user w) as (o & w0 & Hg).
    rewrite Hg in F |- *. simpl in F. destruct F as (Ftasks & Flog & Fev & Fcalls).
    destruct (truthy_some _ Hlinked) as (eid & Heid & Heidt).
    assert (Hw : event_id_of w tid = Some eid).
    { unfold seen in Heid. unfold event_id_of.
      destruct (anon_visible env tid); [exact Heid|discriminate]. }
    rewrite Heid. change (default "" (Some eid)) with eid.
    destruct o as [row|]; cbn -[event_id_of].
    + destruct (delete_fault env) as [e|]; [|destruct (events w0 !! eid) as [old|] eqn:Hold];
        cbn -[event_id_of]; exists tid; rewrite Ftasks, Flog, Fcalls, Fev;
        (split; [reflexivity|]); (split; [reflexivity|]); (split; [reflexivity|]);
        right; exists eid; auto.
    + exists tid. rewrite Ftasks, Flog, Fcalls, Fev. auto 6.
  - cbn -[event_id_of]. exists tid. auto 6.
Qed.

(** X9: an unsync request writes no log row and makes no create or update
    call: its only possible calendar call is one delete.  It neither adds
    nor removes a task row, changes no column other than
    [google_calendar_event_id] and [updated_at], and leaves the rows of
    tasks other than the one named as they are. *)
Theorem unsync_frame (env : Env) (rt : Runtime) (request : Request)
    (w : World) (t : string) :
  let w' := snd (unsync env rt request w) in
  sync_log w' = sync_log w
  /\ (calls w' = calls w \/ exists eid, calls w' = (calls w ++ [CallDelete eid])%list)
  /\ creates w' = creates w
  /\ match tasks w !! t, tasks w' !! t with
     | Some a, Some b => same_task_data a b /\ (request.(query_taskId) <> Some t -> b = a)
     | None, None => True
     | _, _ => False
     end.
Proof.
  cbv zeta. pose proof (unsync_outcome env rt request w) as H.
  assert (Hsame : match tasks w !! t, tasks w !! t with
                  | Some a, Some b =>
                      same_task_data a b /\ (request.(query_taskId) <> Some t -> b = a)
                  | None, None => True
                  | _, _ => False
                  end).
  { destruct (tasks w !! t); [|exact I]. unfold same_task_data. auto 10. }
  destruct (fst (unsync env rt request w)) as [| | | | |eid|eid|d| |]; simpl in H;
    try contradiction; try (rewrite H; auto).
  destruct H as (tid & Hn & Ht & Hlog & Hcalls).
  split; [exact Hlog|].
  assert (Hc : calls (snd (unsync env rt request w)) = calls w
               \/ exists eid, calls (snd (unsync env rt request w))
                              = (calls w ++ [CallDelete eid])%list).
  { destruct Hcalls as [[Hc _]|(eid & _ & _ & Hc & _)]; eauto. }
  split; [exact Hc|]. split.
  - unfold creates. destruct Hc as [->|[eid ->]]; [reflexivity|].
    rewrite List.filter_app, length_app. simpl. lia.
  - rewrite Ht. destruct (decide (tid = t)) as [->|Hne].
    + rewrite lookup_alter_eq. destruct (tasks w !! t); simpl; [|exact I].
      unfold same_task_data. simpl. split; [auto 10|]. intros Hx. contradiction.
    + rewrite lookup_alter_ne by exact Hne. exact Hsame.
Qed.

(** X10: when the user has no usable credential, or the anon client does not
    see the task row, an unsync request makes no calendar call at all and
    still clears the link: the answer is success, the task holds no event
    id, and every event of the calendar, the one that was linked included,
    is still there. *)
Theorem unsync_without_connection_keeps_event (env : Env) (rt : Runtime)
    (request : Request) (w : World) (user tid : string) :
  authenticated env request user ->
  request.(query_taskId) = Some tid ->
  JS.truthy_string tid = true ->
  anon_visible env tid = false \/ fst (run env (getValidTokens rt user) w) = inr None ->
  let r := fst (unsync env rt request w) in
  let w' := snd (unsync env rt request w) in
  r = Removed /\ event_id_of w' tid = None
  /\ calls w' = calls w /\ events w' = events w.
Proof.
  intros [Hauth Huser] Hq Htruthy Hcase. unfold unsync, DELETE, DELETE_body.
  rewrite Hauth. simpl. rewrite Huser, Hq. simpl. rewrite Htruthy. simpl.
  assert (Hclear : forall w0 : World,
             event_id_of (with_tasks (alter (set_task_event None rt.(now)) tid) w0) tid
             = None).
  { intros w0. unfold event_id_of. simpl. rewrite lookup_alter_eq.
    destruct (tasks w0 !! tid); reflexivity. }
  destruct (JS.truthy ((if anon_visible env tid then tasks w !! tid else None)
                         ≫= google_calendar_event_id)) eqn:Hlinked.
  - destruct Hcase as [Hvis|Hnull]; [rewrite Hvis in Hlinked; discriminate|].
    rewrite run_try_catch, run_bind, run_bind.
    destruct (run env (getValidTokens rt user) w) as [o w0] eqn:Hg.
    simpl in Hnull. subst o. apply getValidTokens_null in Hg. subst w0.
    cbn -[event_id_of]. auto.
  - cbn -[event_id_of]. auto.
Qed.

Lemma unsync_without_connection_keeps_event_witness :
  let w := Cases.unconnected in
  let r := fst (unsync (Scenario.env "e2") Scenario.early Scenario.request w) in
  let w' := snd (unsync (Scenario.env "e2") Scenario.early Scenario.request w) in
  r = Removed /\ event_id_of w' "t1" = None
  /\ calls w' = calls w /\ events w' = events w.
Proof.
  apply (unsync_without_connection_keeps_event (Scenario.env "e2") Scenario.early
           Scenario.request Cases.unconnected "u1" "t1").
  - split; reflexivity.
  - reflexivity.
  - reflexivity.
  - right. vm_compute. reflexivity.
Defined.

(** X11: when the anon client sees the linked task, the user is connected
    and the delete call meets no failure of the service, an unsync request
    answers success after exactly one delete call for the linked event:
    afterwards the calendar holds no event under that id, every other event
    is untouched, and the task holds no event id. *)
Theorem unsync_deletes_event (env : Env) (rt : Runtime) (request : Request)
    (w w0 : World) (user tid eid : string) (task : TaskRow) (tk : TokenRow) :
  authenticated env request user ->
  request.(query_taskId) = Some tid ->
  JS.truthy_string tid = true ->
  anon_visible env tid = true ->
  w.(tasks) !! tid = Some task ->
  task.(google_calendar_event_id) = Some eid ->
  JS.truthy_string eid = true ->
  run env (getValidTokens rt user) w = (inr (Some tk), w0) ->
  env.(delete_fault) = None ->
  let r := fst (unsync env rt request w) in
  let w' := snd (unsync env rt request w) in
  r = Removed
  /\ calls w' = (calls w ++ [CallDelete eid])%list
  /\ events w' !! eid = None
  /\ (forall k, k <> eid -> events w' !! k = events w !! k)
  /\ event_id_of w' tid = None.
Proof.
  intros [Hauth Huser] Hq Htruthy Hvis Htask Hlink Heid Hg Hfault.
  unfold unsync, DELETE, DELETE_body.
  rewrite Hauth. simpl. rewrite Huser, Hq. simpl. rewrite Htruthy. simpl.
  rewrite Hvis, Htask. simpl. rewrite Hlink. simpl. rewrite Heid.
  rewrite run_try_catch, run_bind, run_bind, Hg.
  pose proof (getValidTokens_frame env rt user w) as F. rewrite Hg in F.
  simpl in F. destruct F as (Ftasks & Flog & Fev & Fcalls).
  cbn -[event_id_of]. rewrite Hfault.
  destruct (events w0 !! eid) as [old|] eqn:Hold; cbn -[event_id_of];
    unfold event_id_of; simpl; rewrite Ftasks, Fcalls, lookup_alter_eq, Htask; simpl;
    (split; [reflexivity|]); (split; [reflexivity|]).
  - rewrite lookup_delete_eq. split; [reflexivity|]. split; [|reflexivity].
    intros k Hk. rewrite lookup_delete_ne by congruence. rewrite Fev. reflexivity.
  - split; [exact Hold|]. split; [|reflexivity]. intros k _. rewrite Fev. reflexivity.
Qed.

Lemma unsync_deletes_event_witness :
  let w := Cases.synced in
  let r := fst (unsync (Scenario.env "e2") Scenario.early Scenario.request w) in
  let w' := snd (unsync (Scenario.env "e2") Scenario.early Scenario.request w) in
  r = Removed
  /\ calls w' = (calls w ++ [CallDelete "e1"])%list
  /\ events w' !! "e1" = None
  /\ (forall k, k <> "e1" -> events w' !! k = events w !! k)
  /\ event_id_of w' "t1" = None.
Proof.
  apply (unsync_deletes_event (Scenario.env "e2") Scenario.early Scenario.request
           Cases.synced Cases.synced "u1" "t1" "e1" (Scenario.linked "e1") Scenario.row).
  - split; reflexivity.
  - reflexivity.
  - reflexivity.
  - reflexivity.
  - vm_compute. reflexivity.
  - reflexivity.
  - reflexivity.
  - vm_compute. reflexivity.
  - reflexivity.
Defined.

(** ** Credentials across two calls *)

(** X12: after a call of [getValidTokens] has refreshed an expired
    credential, a later call made before the new expiry returns the row that
    the refresh persisted (the refreshed access token, the untouched refresh
    token, the new expiry) without contacting the token endpoint and
    without writing. *)
Theorem refreshed_token_is_reused (env1 env2 : Env) (rt1 rt2 : Runtime) (u : string)
    (w w1 : World) (stored r : TokenRow) (nt : NewTokens) :
  w.(tokens) !! u = Some stored ->
  stored.(expires_at) <= rt1.(now) ->
  run env1 (refreshAccessToken rt1 stored.(refresh_token)) w = (inr nt, w) ->
  run env1 (getValidTokens rt1 u) w = (inr (Some r), w1) ->
  rt2.(now) < nt.(expiry_date) ->
  let kept := set_token_refresh nt.(new_access_token) nt.(expiry_date) rt1.(now) stored in
  run env2 (getValidTokens rt2 u) w1 = (inr (Some kept), w1)
  /\ kept.(access_token) = r.(access_token)
  /\ kept.(refresh_token) = stored.(refresh_token).
Proof.
  intros Hrow Hexp Hrefresh Hfirst Hfresh.
  rewrite run_getValidTokens, Hrow in Hfirst.
  apply Z.leb_le in Hexp. rewrite Hexp in Hfirst.
  rewrite run_refreshAccessToken in Hrefresh. unfold refresh_outcome in Hfirst.
  destruct (refresh_reply env1 (refresh_token stored)) as [e|c]; [discriminate|].
  destruct (JS.truthy (cred_access_token c)); [|discriminate].
  injection Hrefresh as Hnt. subst nt. cbn [expiry_date new_access_token] in *.
  destruct (JSDate.time_clip _) as [t|] eqn:Hclip; simpl in Hfirst; [|discriminate].
  unfold JSDate.time_clip in Hclip.
  destruct (Z.abs _ <=? _); [|discriminate]. injection Hclip as Ht.
  injection Hfirst as Hr Hw. subst r w1 t. cbv zeta.
  rewrite run_getValidTokens. simpl. rewrite lookup_alter_eq, Hrow. simpl.
  apply Z.leb_gt in Hfresh. rewrite Hfresh. auto.
Qed.

Lemma refreshed_token_is_reused_witness :
  let w := Scenario.world Scenario.task in
  let nt := {| new_access_token := "a1"; expiry_date := 9999000 |} in
  let w1 := snd (run (Scenario.env "e1") (getValidTokens Scenario.late "u1") w) in
  let kept := set_token_refresh "a1" 9999000 (now Scenario.late) Scenario.row in
  run Scenario.env_revoked
      (getValidTokens {| now := 9998999; local_tza := JSDate.UTC |} "u1") w1
  = (inr (Some kept), w1)
  /\ kept.(access_token) = (with_access_token "a1" Scenario.row).(access_token)
  /\ kept.(refresh_token) = Scenario.row.(refresh_token).
Proof.
  apply (refreshed_token_is_reused (Scenario.env "e1") Scenario.env_revoked
           Scenario.late {| now := 9998999; local_tza := JSDate.UTC |} "u1"
           (Scenario.world Scenario.task)
           (snd (run (Scenario.env "e1") (getValidTokens Scenario.late "u1")
                   (Scenario.world Scenario.task)))
           Scenario.row (with_access_token "a1" Scenario.row)
           {| new_access_token := "a1"; expiry_date := 9999000 |}).
  - vm_compute. reflexivity.
  - vm_compute. discriminate.
  - vm_compute. reflexivity.
  - vm_compute. reflexivity.
  - vm_compute. reflexivity.
Defined.

(** X13: when the refresh grant answers with an access token and no expiry
    (or an expiry of 0), the credential is persisted as valid for one hour
    from the clock reading of the call. *)
Theorem refresh_without_expiry_lasts_an_hour (env : Env) (rt : Runtime) (u : string)
    (w : World) (stored : TokenRow) (c : Credentials) :
  w.(tokens) !! u = Some stored ->
  stored.(expires_at) <= rt.(now) ->
  env.(refresh_reply) stored.(refresh_token) = inr c ->
  JS.truthy c.(cred_access_token) = true ->
  JS.truthy_number c.(cred_expiry_date) = false ->
  Z.abs (rt.(now) + 3600000) <= 8640000000000000 ->
  exists kept,
    (snd (run env (getValidTokens rt u) w)).(tokens) !! u = Some kept
    /\ kept.(expires_at) = rt.(now) + 3600000
    /\ Some kept.(access_token) = c.(cred_access_token)
    /\ kept.(refresh_token) = stored.(refresh_token).
Proof.
  intros Hrow Hexp Hreply Haccess Hnoexp Hclip.
  rewrite run_getValidTokens, Hrow. apply Z.leb_le in Hexp. rewrite Hexp.
  unfold refresh_outcome. rewrite Hreply, Haccess, Hnoexp.
  unfold JSDate.time_clip. apply Z.leb_le in Hclip. rewrite Hclip. simpl.
  rewrite lookup_alter_eq, Hrow. simpl. eexists. split; [reflexivity|]. simpl.
  destruct (cred_access_token c); [auto|discriminate].
Qed.

Lemma refresh_without_expiry_lasts_an_hour_witness :
  let env := {| getUser := fun _ => None; anon_visible := fun _ => true;
                refresh_reply := fun _ => inr {| cred_access_token := Some "a2";
                                                 cred_refresh_token := None;
                                                 cred_expiry_date := None |};
                insert_reply := InsertReturns None;
                patch_fault := None; delete_fault := None |} in
  exists kept,
    (snd (run env (getValidTokens Scenario.late "u1")
            (Scenario.world Scenario.task))).(tokens) !! "u1" = Some kept
    /\ kept.(expires_at) = now Scenario.late + 3600000
    /\ Some kept.(access_token) = Some "a2"
    /\ kept.(refresh_token) = Scenario.row.(refresh_token).
Proof.
  apply (refresh_without_expiry_lasts_an_hour _ Scenario.late "u1"
           (Scenario.world Scenario.task) Scenario.row
           {| cred_access_token := Some "a2"; cred_refresh_token := None;
              cred_expiry_date := None |}).
  - vm_compute. reflexivity.
  - vm_compute. discriminate.
  - reflexivity.
  - reflexivity.
  - reflexivity.
  - vm_compute. discriminate.
Defined.

(** ** The mapper, further *)

Lemma toISOString_some (d : option Z) (s : string) :
  JSDate.toISOString d = Some s -> exists t, d = Some t /\ s = JSDate.iso_string t.
Proof.
  unfold JSDate.toISOString, JSDate.time_clip. destruct d as [t|]; simpl; [|discriminate].
  destruct (Z.abs t <=? _); simpl; [|discriminate].
  intros H. injection H as <-. eauto.
Qed.

(** X14: whenever the mapping of a task with a due date and a due time
    succeeds, the event is timed: its start is the ISO print of the instant
    [startDateTime], its end the ISO print of the instant [durationMs]
    later, both labelled [Europe/Paris]; and the update call gets the very
    same event as the create call. *)
Theorem timed_event_shape (rt : Runtime) (task : TaskEvent) (ev : Event) :
  JS.truthy task.(dueDate) = true ->
  JS.truthy task.(dueTime) = true ->
  toExternalEvent rt task = inr ev ->
  exists s,
    startDateTime rt (default "" task.(dueDate)) (default "" task.(dueTime)) = Some s
    /\ ev.(ev_start) = Some (Timed (JSDate.iso_string s) "Europe/Paris")
    /\ ev.(ev_end)
       = Some (Timed (JSDate.iso_string (s + durationMs task.(te_duration))) "Europe/Paris")
    /\ toExternalPatch rt task = inr ev.
Proof.
  intros Hd Ht. unfold toExternalEvent, toExternalPatch, createTimes, updateTimes.
  rewrite Hd, Ht. cbn [andb]. unfold timedEvent.
  destruct (JSDate.toISOString (startDateTime rt _ _)) as [s|] eqn:Hs; [|discriminate].
  destruct (JSDate.toISOString (endDateTime rt _ _ _)) as [e|] eqn:He; [|discriminate].
  intros H. injection H as <-.
  destruct (toISOString_some _ _ Hs) as (ts & Hts & ->).
  destruct (toISOString_some _ _ He) as (te & Hte & ->).
  exists ts. split; [exact Hts|]. simpl. split; [reflexivity|].
  split; [|reflexivity].
  pose proof (timed_event_length rt _ _ _ ts te Hts Hte) as Hlen.
  replace (ts + durationMs (te_duration task)) with te by lia. reflexivity.
Qed.

Lemma timed_event_shape_witness :
  exists s,
    startDateTime Scenario.early (default "" (dueDate (taskEvent_of Scenario.task)))
      (default "" (dueTime (taskEvent_of Scenario.task))) = Some s
    /\ Scenario.create_body.(ev_start) = Some (Timed (JSDate.iso_string s) "Europe/Paris")
    /\ Scenario.create_body.(ev_end)
       = Some (Timed (JSDate.iso_string
                        (s + durationMs (te_duration (taskEvent_of Scenario.task))))
                 "Europe/Paris")
    /\ toExternalPatch Scenario.early (taskEvent_of Scenario.task)
       = inr Scenario.create_body.
Proof.
  apply (timed_event_shape Scenario.early (taskEvent_of Scenario.task)
           Scenario.create_body).
  - reflexivity.
  - reflexivity.
  - vm_compute. reflexivity.
Defined.

(** X15: when the local zone of the process agrees with [Europe/Paris] at
    the due date and time, the start of the timed event is an instant that
    reads, in [Europe/Paris], as that due date and time. *)
Theorem timed_start_reads_due_time (rt : Runtime) (task : TaskEvent) (ev : Event)
    (l : Z) :
  JS.truthy task.(dueDate) = true ->
  JS.truthy task.(dueTime) = true ->
  toExternalEvent rt task = inr ev ->
  JSDate.parse_wall_clock
    (formatDateForAllDay (default "" task.(dueDate)) +:+ "T"
       +:+ default "" task.(dueTime) +:+ ":00") = Some l ->
  rt.(local_tza) l = JSDate.Europe_Paris (l - rt.(local_tza) l) ->
  exists s,
    ev.(ev_start) = Some (Timed (JSDate.iso_string s) "Europe/Paris")
    /\ JSDate.wall_clock JSDate.Europe_Paris s = l.
Proof.
  intros Hd Ht Hev Hparse Hzone.
  unfold toExternalEvent, createTimes in Hev. rewrite Hd, Ht in Hev.
  cbn [andb] in Hev. unfold timedEvent in Hev.
  destruct (JSDate.toISOString (startDateTime rt _ _)) as [s|] eqn:Hs; [|discriminate].
  destruct (JSDate.toISOString (endDateTime rt _ _ _)) as [e|]; [|discriminate].
  injection Hev as <-.
  destruct (toISOString_some _ _ Hs) as (ts & Hts & ->).
  exists ts. split; [reflexivity|].
  exact (timed_event_start_in_zone rt _ _ l ts Hparse Hzone Hts).
Qed.

(** A process in the zone of the calendar, in winter. *)
Lemma timed_start_reads_due_time_witness :
  let rt := {| now := 1000; local_tza := fun l => JSDate.Europe_Paris (l - 3600000) |} in
  exists s,
    (eventOf (taskEvent_of Scenario.task)
       (Some (Timed "2025-03-10T13:00:00.000Z" "Europe/Paris"),
        Some (Timed "2025-03-10T13:30:00.000Z" "Europe/Paris"))).(ev_start)
    = Some (Timed (JSDate.iso_string s) "Europe/Paris")
    /\ JSDate.wall_clock JSDate.Europe_Paris s = 1741615200000.
Proof.
  apply (timed_start_reads_due_time
           {| now := 1000; local_tza := fun l => JSDate.Europe_Paris (l - 3600000) |}
           (taskEvent_of Scenario.task)).
  - reflexivity.
  - reflexivity.
  - vm_compute. reflexivity.
  - vm_compute. reflexivity.
  - vm_compute. reflexivity.
Defined.

(** X16: the mapping of a task that lacks a due date or a due time cannot
    throw.  The create call always gets a start and an end: the due date
    for both when there is one, else the clock reading and one hour later.
    The update call gets the same all-day dates, and no start and no end
    when there is no due date. *)
Theorem untimed_mapping_never_throws (rt : Runtime) (task : TaskEvent) :
  JS.truthy task.(dueDate) && JS.truthy task.(dueTime) = false ->
  exists ev pv,
    toExternalEvent rt task = inr ev /\ toExternalPatch rt task = inr pv
    /\ (if JS.truthy task.(dueDate)
        then ev.(ev_start) = Some (AllDay (formatDateForAllDay (default "" task.(dueDate))))
             /\ ev.(ev_end) = ev.(ev_start)
             /\ pv = ev
        else ev.(ev_start) = Some (Timed (JSDate.iso_string rt.(now)) "Europe/Paris")
             /\ ev.(ev_end)
                = Some (Timed (JSDate.iso_string (rt.(now) + 3600000)) "Europe/Paris")
             /\ pv.(ev_start) = None /\ pv.(ev_end) = None).
Proof.
  intros H. unfold toExternalEvent, toExternalPatch, createTimes, updateTimes.
  rewrite H. destruct (JS.truthy (dueDate task)); simpl; eauto 10.
Qed.

Lemma untimed_mapping_never_throws_witness :
  let task := {| te_id := None; te_title := ""; te_description := None;
                 dueDate := None; dueTime := Some "14:00"; te_duration := None;
                 te_status := "todo"; te_priority := 0 |} in
  exists ev pv,
    toExternalEvent Scenario.early task = inr ev
    /\ toExternalPatch Scenario.early task = inr pv
    /\ (if JS.truthy task.(dueDate)
        then ev.(ev_start) = Some (AllDay (formatDateForAllDay (default "" task.(dueDate))))
             /\ ev.(ev_end) = ev.(ev_start)
             /\ pv = ev
        else ev.(ev_start)
             = Some (Timed (JSDate.iso_string (now Scenario.early)) "Europe/Paris")
             /\ ev.(ev_end)
                = Some (Timed (JSDate.iso_string (now Scenario.early + 3600000))
                          "Europe/Paris")
             /\ pv.(ev_start) = None /\ pv.(ev_end) = None).
Proof.
  apply (untimed_mapping_never_throws Scenario.early).
  reflexivity.
Defined.

(** X17: the colour table and the priority label of the description agree
    on which priorities are known: a priority gets the default colour ["1"]
    exactly when it is labelled [No priority], which is exactly when it is
    not one of 1, 2, 3, 4; and these four get four different colours. *)
Theorem priority_tables_agree (p q : Z) :
  (getPriorityColorId p = "1" <-> priorityText p = "No priority")
  /\ (getPriorityColorId p = "1" <-> ~ (1 <= p <= 4))
  /\ (1 <= p <= 4 -> 1 <= q <= 4 -> getPriorityColorId p = getPriorityColorId q -> p = q).
Proof.
  unfold getPriorityColorId, priorityText.
  destruct (Z.eqb_spec p 4);
    [|destruct (Z.eqb_spec p 3);
      [|destruct (Z.eqb_spec p 2); [|destruct (Z.eqb_spec p 1)]]];
    (destruct (Z.eqb_spec q 4);
     [|destruct (Z.eqb_spec q 3);
       [|destruct (Z.eqb_spec q 2); [|destruct (Z.eqb_spec q 1)]]]);
    subst; repeat split; intros; try discriminate; try reflexivity; try lia.
Qed.

(** ** The OAuth callback *)

(** X18: when the code exchange yields tokens and the store takes the
    upsert, the callback redirects to the connected page; the credential
    row of the user named by [state] is exactly the tokens of the exchange,
    replacing any earlier row, the rows of other users and all tasks are
    untouched, one connection row is logged, and from then on
    [getValidTokens] returns that row, without a refresh, at any time before
    its expiry. *)
Theorem callback_connects (out : Outside) (rt : Runtime) (q : CallbackQuery)
    (w : World) (code state : string) (ct : CodeTokens) :
  JS.truthy q.(cb_error) = false ->
  q.(cb_code) = Some code -> JS.truthy_string code = true ->
  q.(cb_state) = Some state -> JS.truthy_string state = true ->
  getTokensFromCode out rt code = inr ct ->
  Z.abs ct.(ct_expiry_date) <= 8640000000000000 ->
  out.(upsert_refused) = false ->
  let row := {| user_id := state; access_token := ct.(ct_access_token);
                refresh_token := ct.(ct_refresh_token);
                expires_at := ct.(ct_expiry_date); scope := ct.(ct_scope);
                token_type := ct.(ct_token_type); updated_at := Some rt.(now) |} in
  let w' := snd (callback_GET out rt q w) in
  fst (callback_GET out rt q w) = connected_url
  /\ tokens w' !! state = Some row
  /\ (forall v, v <> state -> tokens w' !! v = tokens w !! v)
  /\ tasks w' = tasks w
  /\ sync_log w' = (sync_log w ++ [connection_row state])%list
  /\ forall env rt2, rt2.(now) < ct.(ct_expiry_date) ->
       run env (getValidTokens rt2 state) w' = (inr (Some row), w').
Proof.
  intros Herr Hcode Hc Hstate Hs Hct Hclip Hup. cbv zeta.
  unfold callback_GET. rewrite Herr, Hcode, Hstate. simpl. rewrite Hc, Hs. simpl.
  rewrite Hct. unfold JSDate.time_clip. apply Z.leb_le in Hclip. rewrite Hclip, Hup.
  simpl. rewrite lookup_insert_eq.
  repeat split; try reflexivity.
  - intros v Hv. apply lookup_insert_ne. congruence.
  - intros env rt2 Hfresh. rewrite run_getValidTokens. simpl.
    rewrite lookup_insert_eq. simpl. apply Z.leb_gt in Hfresh. rewrite Hfresh.
    reflexivity.
Qed.

Lemma callback_connects_witness :
  let out := {| token_reply := fun _ => inr {| tk_access_token := Some "a7";
                                               tk_refresh_token := Some "r7";
                                               tk_expiry_date := Some 7000;
                                               tk_scope := None;
                                               tk_token_type := None |};
                upsert_refused := false; delete_refused := false;
                update_refused := false |} in
  let q := {| cb_code := Some "c"; cb_state := Some "u1"; cb_error := None |} in
  let row := {| user_id := "u1"; access_token := "a7"; refresh_token := "r7";
                expires_at := 7000;
                scope := String.concat " " GOOGLE_SCOPES;
                token_type := "Bearer"; updated_at := Some (now Scenario.early) |} in
  let w := Scenario.world Scenario.task in
  let w' := snd (callback_GET out Scenario.early q w) in
  fst (callback_GET out Scenario.early q w) = connected_url
  /\ tokens w' !! "u1" = Some row
  /\ (forall v, v <> "u1" -> tokens w' !! v = tokens w !! v)
  /\ tasks w' = tasks w
  /\ sync_log w' = (sync_log w ++ [connection_row "u1"])%list
  /\ forall env rt2, rt2.(now) < 7000 ->
       run env (getValidTokens rt2 "u1") w' = (inr (Some row), w').
Proof.
  apply (callback_connects _ Scenario.early
           {| cb_code := Some "c"; cb_state := Some "u1"; cb_error := None |}
           (Scenario.world Scenario.task) "c" "u1"
           {| ct_access_token := "a7"; ct_refresh_token := "r7";
              ct_expiry_date := 7000;
              ct_scope := String.concat " " GOOGLE_SCOPES;
              ct_token_type := "Bearer" |}).
  - reflexivity.
  - reflexivity.
  - reflexivity.
  - reflexivity.
  - reflexivity.
  - reflexivity.
  - vm_compute. discriminate.
  - reflexivity.
Defined.

(** X19: [getTokensFromCode] succeeds exactly when the exchange answers
    with a non-empty access token and a non-empty refresh token; it then
    returns these two, an expiry that is the answer's or, without one, one
    hour after the clock reading, and [Bearer] when the answer names no
    token type. *)
Theorem getTokensFromCode_needs_both_tokens (out : Outside) (rt : Runtime) (code : string) :
  match getTokensFromCode out rt code with
  | inr ct =>
      exists reply,
        out.(token_reply) code = inr reply
        /\ reply.(tk_access_token) = Some ct.(ct_access_token)
        /\ reply.(tk_refresh_token) = Some ct.(ct_refresh_token)
        /\ JS.truthy_string ct.(ct_access_token) = true
        /\ JS.truthy_string ct.(ct_refresh_token) = true
        /\ ct.(ct_expiry_date) = (if JS.truthy_number reply.(tk_expiry_date)
                                  then default 0 reply.(tk_expiry_date)
                                  else rt.(now) + 3600000)
        /\ (JS.truthy reply.(tk_token_type) = false -> ct.(ct_token_type) = "Bearer")
  | inl _ =>
      match out.(token_reply) code with
      | inl _ => True
      | inr reply =>
          JS.truthy reply.(tk_access_token) = false
          \/ JS.truthy reply.(tk_refresh_token) = false
      end
  end.
Proof.
  unfold getTokensFromCode.
  destruct (token_reply out code) as [e|reply]; [exact I|].
  destruct (JS.truthy (tk_access_token reply)) eqn:Ha; simpl; [|auto].
  destruct (JS.truthy (tk_refresh_token reply)) eqn:Hr; simpl; [|auto].
  destruct (truthy_some _ Ha) as (a & Hae & Hat).
  destruct (truthy_some _ Hr) as (r & Hre & Hrt).
  exists reply. rewrite Hae, Hre. simpl. repeat split; try assumption.
  intros ->. reflexivity.
Qed.

(** X20: the callback writes nothing unless it redirects to the connected
    page: on an [error] parameter, a missing [code] or [state], a failed or
    incomplete exchange, or a refused upsert, the world is unchanged, so a
    credential stored earlier is kept. *)
Theorem callback_writes_only_on_success (out : Outside) (rt : Runtime)
    (q : CallbackQuery) (w : World) :
  (fst (callback_GET out rt q w) = connected_url
   /\ JS.truthy q.(cb_error) = false
   /\ (exists ct, getTokensFromCode out rt (default "" q.(cb_code)) = inr ct)
   /\ out.(upsert_refused) = false)
  \/ (snd (callback_GET out rt q w) = w
      /\ fst (callback_GET out rt q w) <> connected_url).
Proof.
  unfold callback_GET.
  destruct (JS.truthy (cb_error q)); [right; split; [reflexivity|discriminate]|].
  destruct (negb (JS.truthy (cb_code q)) || negb (JS.truthy (cb_state q)));
    [right; split; [reflexivity|discriminate]|].
  destruct (getTokensFromCode out rt (default "" (cb_code q))) as [e|ct];
    [right; split; [reflexivity|discriminate]|].
  destruct (JSDate.time_clip (ct_expiry_date ct));
    [|right; split; [reflexivity|discriminate]].
  destruct (upsert_refused out); [right; split; [reflexivity|discriminate]|].
  left. simpl. eauto.
Qed.

(** ** The status route *)

(** X22: a disconnect that the store carries out removes the credential
    row of the user and nothing else: other users' rows, the tasks (their
    event ids included) and the calendar are untouched.  Afterwards the
    status route reports the user as not connected and [getValidTokens]
    yields [null] for that user whatever the token endpoint would answer. *)
Theorem disconnect_removes_credential (env : Env) (out : Outside) (request : Request)
    (w : World) (user : string) :
  authenticated env request user ->
  out.(delete_refused) = false ->
  let w' := snd (status_DELETE env out request w) in
  fst (status_DELETE env out request w) = StatusSuccess
  /\ tokens w' !! user = None
  /\ (forall v, v <> user -> tokens w' !! v = tokens w !! v)
  /\ tasks w' = tasks w /\ events w' = events w /\ calls w' = calls w
  /\ (forall rt, status_GET env rt request w' = StatusDisconnected)
  /\ forall env2 rt, run env2 (getValidTokens rt user) w' = (inr None, w').
Proof.
  intros [Hauth Huser] Hdel. cbv zeta. unfold status_DELETE, status_GET.
  rewrite Hauth, Huser, Hdel. simpl. rewrite lookup_delete_eq.
  repeat split; try reflexivity.
  - intros v Hv. apply lookup_delete_ne. congruence.
  - intros env2 rt. rewrite run_getValidTokens. simpl. rewrite lookup_delete_eq.
    reflexivity.
Qed.

Lemma disconnect_removes_credential_witness :
  let out := {| token_reply := fun _ => inl (JsError "unused");
                upsert_refused := false; delete_refused := false;
                update_refused := false |} in
  let w := Cases.synced in
  let w' := snd (status_DELETE (Scenario.env "e1") out Scenario.request w) in
  fst (status_DELETE (Scenario.env "e1") out Scenario.request w) = StatusSuccess
  /\ tokens w' !! "u1" = None
  /\ (forall v, v <> "u1" -> tokens w' !! v = tokens w !! v)
  /\ tasks w' = tasks w /\ events w' = events w /\ calls w' = calls w
  /\ (forall rt, status_GET (Scenario.env "e1") rt Scenario.request w' = StatusDisconnected)
  /\ forall env2 rt, run env2 (getValidTokens rt "u1") w' = (inr None, w').
Proof.
  apply (disconnect_removes_credential (Scenario.env "e1") _ Scenario.request
           Cases.synced "u1").
  - split; reflexivity.
  - reflexivity.
Defined.

(** X23: the status route and the credential helper agree.  When the
    status is not connected, [getValidTokens] yields [null]; when it is
    connected and not expired, [getValidTokens] returns the stored row as it
    is, without a write; when it is connected and expired, [getValidTokens]
    yields [null] or the stored row with a refreshed access token. *)
Theorem status_agrees_with_getValidTokens (env : Env) (rt : Runtime)
    (request : Request) (w : World) (user : string) :
  authenticated env request user ->
  match status_GET env rt request w with
  | StatusDisconnected => run env (getValidTokens rt user) w = (inr None, w)
  | StatusConnected expiresAt false lastUpdated =>
      exists row, w.(tokens) !! user = Some row
                  /\ row.(expires_at) = expiresAt /\ row.(updated_at) = lastUpdated
                  /\ rt.(now) < expiresAt
                  /\ run env (getValidTokens rt user) w = (inr (Some row), w)
  | StatusConnected expiresAt true lastUpdated =>
      exists row, w.(tokens) !! user = Some row
                  /\ row.(expires_at) = expiresAt /\ expiresAt <= rt.(now)
                  /\ (fst (run env (getValidTokens rt user) w) = inr None
                      \/ exists a, fst (run env (getValidTokens rt user) w)
                                   = inr (Some (with_access_token a row)))
  | _ => False
  end.
Proof.
  intros [Hauth Huser]. unfold status_GET. rewrite Hauth, Huser. simpl.
  rewrite run_getValidTokens.
  destruct (tokens w !! user) as [row|]; [|reflexivity].
  destruct (expires_at row <=? now rt) eqn:Hexp.
  - apply Z.leb_le in Hexp. exists row. repeat split; try assumption.
    destruct (refresh_outcome env rt row) as [[a t]|]; simpl; eauto.
  - apply Z.leb_gt in Hexp. exists row. auto.
Qed.

Lemma status_agrees_with_getValidTokens_witness :
  exists row, tokens (Scenario.world Scenario.task) !! "u1" = Some row
              /\ row.(expires_at) = 5000 /\ row.(updated_at) = None
              /\ now Scenario.early < 5000
              /\ run (Scenario.env "e1") (getValidTokens Scenario.early "u1")
                     (Scenario.world Scenario.task)
                 = (inr (Some row), Scenario.world Scenario.task).
Proof.
  apply (status_agrees_with_getValidTokens (Scenario.env "e1") Scenario.early
           Scenario.request (Scenario.world Scenario.task) "u1").
  split; reflexivity.
Defined.

(** ** The task route *)

Lemma run_swallowed_update (env : Env) (rt : Runtime) (eid : string) (task : TaskRow)
    (w : World) :
  exists ev,
    toExternalPatch rt (patched_taskEvent task) = inr ev
    /\ ev.(ev_end) = ev.(ev_start)
    /\ (ev.(ev_start) = None \/ exists d, ev.(ev_start) = Some (AllDay d))
    /\ snd (run env (try_catch (updateCalendarEvent rt eid (patched_taskEvent task))
                       (fun _ => Ret tt)) w)
       = snd (exec env (EventsPatch eid ev) w).
Proof.
  rewrite run_try_catch, run_updateCalendarEvent.
  unfold toExternalPatch, updateTimes. simpl. rewrite andb_false_r.
  destruct (JS.truthy (due_date task)); simpl;
    (eexists; split; [reflexivity|]; simpl; split; [reflexivity|]; split; [eauto|]);
    destruct (patch_fault env); [reflexivity| |reflexivity|];
    destruct (events w !! eid); reflexivity.
Qed.

(** X24: the task route answers with the task only after the store has
    taken the update: the task named exists, the row after the update
    passes the constraints on [status] and [priority], and that row is what
    the store now holds under the id, with no log row written.  In every
    other case (no valid token, unparsable body, unknown task, refused row)
    the world is unchanged. *)
Theorem patch_outcome (env : Env) (out : Outside) (rt : Runtime) (request : Request)
    (tid : string) (body : option TaskUpdates) (w : World) :
  let w' := snd (PATCH env out rt request tid body w) in
  match fst (PATCH env out rt request tid body w) with
  | PatchTask task =>
      exists updates old,
        body = Some updates /\ w.(tasks) !! tid = Some old
        /\ task = apply_updates updates rt.(now) old
        /\ row_accepted task = true
        /\ tasks w' = <[tid := task]> (tasks w)
        /\ sync_log w' = sync_log w
  | _ => w' = w
  end.
Proof.
  cbv zeta. unfold PATCH.
  destruct (JS.truthy (authorization request)); cbn [negb]; [|reflexivity].
  destruct (getUser env _) as [user|]; [|reflexivity].
  destruct body as [updates|]; [|reflexivity].
  destruct (tasks w !! tid) as [old|] eqn:Hold; [|reflexivity].
  cbv zeta. set (task := apply_updates updates (now rt) old).
  destruct (update_refused out); cbn [orb]; [reflexivity|].
  destruct (row_accepted task) eqn:Hok; cbn [negb]; [|reflexivity].
  set (w1 := with_tasks <[tid := task]> w).
  destruct (JS.truthy (google_calendar_event_id task)).
  2:{ cbn [fst snd]. exists updates, old. auto 10. }
  pose proof (getValidTokens_frame env rt user w1) as F.
  destruct (run env (getValidTokens rt user) w1) as [[e|[row|]] w2]; simpl in F;
    destruct F as (Ftasks & Flog & Fev & Fcalls); cbn [fst snd];
    try (exists updates, old; rewrite Ftasks, Flog; auto 10).
  destruct (run_swallowed_update env rt (default "" (google_calendar_event_id task))
              task w2) as (ev & _ & _ & _ & ->).
  pose proof (exec_patch_frame env (default "" (google_calendar_event_id task)) ev w2)
    as P. cbv zeta in P. destruct P as (_ & Ptasks & Plog & _).
  exists updates, old. rewrite Ptasks, Plog, Ftasks, Flog. auto 10.
Qed.

(** X25: nothing the token endpoint or the calendar does can fail a task
    update: for an authenticated request with a body, a task that exists
    and a row that the store takes, the answer is the updated task whatever
    the outside answers. *)
Theorem patch_survives_calendar_failure (env : Env) (out : Outside) (rt : Runtime)
    (request : Request) (tid user : string) (updates : TaskUpdates) (old : TaskRow)
    (w : World) :
  authenticated env request user ->
  w.(tasks) !! tid = Some old ->
  out.(update_refused) = false ->
  row_accepted (apply_updates updates rt.(now) old) = true ->
  fst (PATCH env out rt request tid (Some updates) w)
  = PatchTask (apply_updates updates rt.(now) old)
  /\ tasks (snd (PATCH env out rt request tid (Some updates) w)) !! tid
     = Some (apply_updates updates rt.(now) old).
Proof.
  intros [Hauth Huser] Hold Hup Hok. unfold PATCH.
  rewrite Hauth, Huser, Hold. cbv zeta. rewrite Hup, Hok. cbn [negb orb].
  set (task := apply_updates updates (now rt) old).
  destruct (JS.truthy (google_calendar_event_id task)).
  2:{ cbn [fst snd tasks with_tasks]. rewrite lookup_insert_eq. auto. }
  pose proof (getValidTokens_frame env rt user (with_tasks <[tid := task]> w)) as F.
  destruct (run env (getValidTokens rt user) (with_tasks <[tid := task]> w))
    as [[e|[row|]] w2]; simpl in F; destruct F as (Ftasks & _); cbn [fst snd];
    try (rewrite Ftasks; cbn [tasks with_tasks]; rewrite lookup_insert_eq; auto).
  destruct (run_swallowed_update env rt (default "" (google_calendar_event_id task))
              task w2) as (ev & _ & _ & _ & ->).
  pose proof (exec_patch_frame env (default "" (google_calendar_event_id task)) ev w2)
    as P. cbv zeta in P. destruct P as (_ & Ptasks & _).
  rewrite Ptasks, Ftasks. cbn [tasks with_tasks]. rewrite lookup_insert_eq. auto.
Qed.

(** The calendar has lost the event; the task update stands. *)
Lemma patch_survives_calendar_failure_witness :
  fst (PATCH (Scenario.env "e2") willing Scenario.early Scenario.request "t1"
         (Some (retitle "Draft")) (Scenario.world (Scenario.linked "e1")))
  = PatchTask (apply_updates (retitle "Draft") (now Scenario.early) (Scenario.linked "e1"))
  /\ tasks (snd (PATCH (Scenario.env "e2") willing Scenario.early Scenario.request "t1"
                   (Some (retitle "Draft")) (Scenario.world (Scenario.linked "e1"))))
       !! "t1"
     = Some (apply_updates (retitle "Draft") (now Scenario.early) (Scenario.linked "e1")).
Proof.
  apply (patch_survives_calendar_failure (Scenario.env "e2") willing Scenario.early
           Scenario.request "t1" "u1" (retitle "Draft") (Scenario.linked "e1")
           (Scenario.world (Scenario.linked "e1"))).
  - split; reflexivity.
  - vm_compute. reflexivity.
  - reflexivity.
  - reflexivity.
Defined.

(** X26: the task route makes at most one calendar call, an update, and the
    event it sends never carries a time: start and end are the same all-day
    date, or both left out when the task has no due date.  The due time and
    the duration of the task do not reach the calendar on this route. *)
Theorem patch_sends_no_time (env : Env) (out : Outside) (rt : Runtime)
    (request : Request) (tid : string) (body : option TaskUpdates) (w : World) :
  let w' := snd (PATCH env out rt request tid body w) in
  calls w' = calls w
  \/ exists eid ev,
       calls w' = (calls w ++ [CallPatch eid ev])%list
       /\ ev.(ev_end) = ev.(ev_start)
       /\ (ev.(ev_start) = None \/ exists d, ev.(ev_start) = Some (AllDay d)).
Proof.
  cbv zeta. unfold PATCH.
  destruct (JS.truthy (authorization request)); cbn [negb]; [|auto].
  destruct (getUser env _) as [user|]; [|auto].
  destruct body as [updates|]; [|auto].
  destruct (tasks w !! tid) as [old|] eqn:Hold; [|auto].
  cbv zeta. set (task := apply_updates updates (now rt) old).
  destruct (update_refused out); cbn [orb]; [auto|].
  destruct (row_accepted task); cbn [negb]; [|auto].
  set (w1 := with_tasks <[tid := task]> w).
  destruct (JS.truthy (google_calendar_event_id task)); [|auto].
  pose proof (getValidTokens_frame env rt user w1) as F.
  destruct (run env (getValidTokens rt user) w1) as [[e|[row|]] w2]; simpl in F;
    destruct F as (_ & _ & _ & Fcalls); cbn [fst snd]; try (left; exact Fcalls).
  destruct (run_swallowed_update env rt (default "" (google_calendar_event_id task))
              task w2) as (ev & _ & Hend & Hstart & ->).
  pose proof (exec_patch_frame env (default "" (google_calendar_event_id task)) ev w2)
    as P. cbv zeta in P. destruct P as (_ & _ & _ & Pcalls & _).
  right. exists (default "" (google_calendar_event_id task)), ev.
  rewrite Pcalls, Fcalls. auto.
Qed.

(** On the task of the scenario, due at 14:00: the sync route sends a timed
    start, the task route an all-day one. *)
Example timed_task_patched_as_all_day :
  calls (snd (sync (Scenario.env "e2") Scenario.early Scenario.request Cases.synced))
  = [CallPatch "e1" Scenario.patch_body]
  /\ ev_start Scenario.patch_body = Some (Timed "2025-03-10T14:00:00.000Z" "Europe/Paris")
  /\ (exists ev,
       calls (snd (PATCH (Scenario.env "e2") willing Scenario.early Scenario.request
                     "t1" (Some (retitle "Write report")) Cases.synced))
       = [CallPatch "e1" ev]
       /\ ev_start ev = Some (AllDay "2025-03-10")).
Proof.
  split; [vm_compute; reflexivity|]. split; [reflexivity|].
  eexists. split; vm_compute; reflexivity.
Qed.

(** ** The events route *)

Lemma strip_prefix_app (n r : string) : JS.strip_prefix n (n +:+ r) = Some r.
Proof.
  induction n as [|c n IH]; simpl; [destruct r; reflexivity|].
  rewrite Ascii.eqb_refl. exact IH.
Qed.

Lemma string_includes_app (n a b : string) :
  string_includes n b = true -> string_includes n (a +:+ b) = true.
Proof.
  intros Hb. induction a as [|c a IH]; [exact Hb|].
  change (String c a +:+ b) with (String c (a +:+ b)).
  cbn [string_includes]. destruct (JS.strip_prefix n _); [reflexivity|exact IH].
Qed.

(** Every description built by the mapper ends with the marker. *)
Lemma description_has_marker (task : TaskEvent) :
  string_includes app_marker (formatEventDescription task) = true.
Proof.
  unfold formatEventDescription. apply string_includes_app. reflexivity.
Qed.

Lemma truthy_app_r (a b : string) :
  JS.truthy_string b = true -> JS.truthy_string (a +:+ b) = true.
Proof. destruct a; [trivial|reflexivity]. Qed.

(** An ISO print is never empty. *)
Lemma iso_string_truthy (t : Z) : JS.truthy_string (JSDate.iso_string t) = true.
Proof.
  unfold JSDate.iso_string.
  destruct (JSDate.civil_from_days _) as [[y m] d].
  apply truthy_app_r. reflexivity.
Qed.

(** X27: an event built by the mapper from a task is recognised by the
    events route when the calendar lists it, whether or not a task is still
    linked to it: it is flagged as coming from the app, its title is the
    task's title ([Untitled] for an empty one), its colour is that of the
    task's priority, and it is shown as all-day exactly when the task has a
    due date and no due time. *)
Theorem mapped_event_is_recognised (rt : Runtime) (task : TaskEvent) (ev : Event)
    (eid : string) (tm : gmap string TaskRow) :
  toExternalEvent rt task = inr ev ->
  let shown := formatEvent tm (listed eid ev) in
  shown.(isFromApp) = true
  /\ shown.(fe_title) = (if JS.truthy_string task.(te_title)
                         then task.(te_title) else "Untitled")
  /\ shown.(fe_color) = Some (getPriorityColorId task.(te_priority))
  /\ shown.(allDay) = JS.truthy task.(dueDate) && negb (JS.truthy task.(dueTime)).
Proof.
  unfold toExternalEvent, createTimes. intros H. cbv zeta.
  assert (Hdesc : ev_description ev = formatEventDescription task
                  /\ summary ev = te_title task
                  /\ colorId ev = getPriorityColorId (te_priority task)).
  { destruct (JS.truthy (dueDate task) && JS.truthy (dueTime task));
      [destruct (timedEvent rt _ _ _) as [e|[s e]]; [discriminate|]|
       destruct (JS.truthy (dueDate task))];
      injection H as <-; auto. }
  destruct Hdesc as (Hd & Hs & Hc).
  unfold formatEvent, listed. simpl. rewrite Hd, Hs, Hc, description_has_marker.
  split; [reflexivity|]. split; [reflexivity|]. split; [reflexivity|].
  destruct (JS.truthy (dueDate task)) eqn:Hdate;
    destruct (JS.truthy (dueTime task)) eqn:Htime; simpl in H |- *.
  - unfold timedEvent in H.
    destruct (JSDate.toISOString (startDateTime rt _ _)) as [s|] eqn:Hstart;
      [|discriminate].
    destruct (JSDate.toISOString (endDateTime rt _ _ _)) as [e|]; [|discriminate].
    injection H as <-. simpl.
    destruct (toISOString_some _ _ Hstart) as (t & _ & ->).
    rewrite iso_string_truthy. reflexivity.
  - injection H as <-. reflexivity.
  - injection H as <-. simpl. rewrite iso_string_truthy. reflexivity.
  - injection H as <-. simpl. rewrite iso_string_truthy. reflexivity.
Qed.

Lemma mapped_event_is_recognised_witness :
  let shown := formatEvent ∅ (listed "e1" Scenario.create_body) in
  shown.(isFromApp) = true
  /\ shown.(fe_title) = (if JS.truthy_string (te_title (taskEvent_of Scenario.task))
                         then te_title (taskEvent_of Scenario.task) else "Untitled")
  /\ shown.(fe_color) = Some (getPriorityColorId (te_priority (taskEvent_of Scenario.task)))
  /\ shown.(allDay) = JS.truthy (dueDate (taskEvent_of Scenario.task))
                      && negb (JS.truthy (dueTime (taskEvent_of Scenario.task))).
Proof.
  apply (mapped_event_is_recognised Scenario.early (taskEvent_of Scenario.task)
           Scenario.create_body "e1" ∅).
  vm_compute. reflexivity.
Defined.

Lemma taskMap_from_rows (rows : list TaskRow) (m : gmap string TaskRow)
    (k : string) (t : TaskRow) :
  foldl (fun m t => match t.(google_calendar_event_id) with
                    | Some k => <[k := t]> m
                    | None => m
                    end) m rows !! k = Some t ->
  (t ∈ rows /\ t.(google_calendar_event_id) = Some k) \/ m !! k = Some t.
Proof.
  revert m. induction rows as [|a rows IH]; intros m; simpl; [auto|].
  intros H. destruct (IH _ H) as [[Hin Hk]|Hm].
  - left. split; [apply list_elem_of_further; exact Hin|exact Hk].
  - destruct (google_calendar_event_id a) as [k'|] eqn:Ha; [|auto].
    destruct (decide (k' = k)) as [->|Hne].
    + rewrite lookup_insert_eq in Hm. injection Hm as <-.
      left. split; [apply list_elem_of_here|exact Ha].
    + rewrite lookup_insert_ne in Hm by exact Hne. auto.
Qed.

Lemma taskMap_holds_rows (rows : list TaskRow) (m : gmap string TaskRow) (k : string) :
  (exists t, t ∈ rows /\ t.(google_calendar_event_id) = Some k) \/ is_Some (m !! k) ->
  is_Some (foldl (fun m t => match t.(google_calendar_event_id) with
                             | Some k => <[k := t]> m
                             | None => m
                             end) m rows !! k).
Proof.
  revert m. induction rows as [|a rows IH]; intros m; simpl.
  - intros [(t & Hin & _)|H]; [|exact H]. inversion Hin.
  - intros [(t & Hin & Hk)|H]; apply IH.
    + apply elem_of_cons in Hin. destruct Hin as [->|Hin]; [|eauto].
      right. rewrite Hk, lookup_insert_eq. eauto.
    + right. destruct (google_calendar_event_id a) as [k'|]; [|exact H].
      destruct (decide (k' = k)) as [->|Hne].
      * rewrite lookup_insert_eq. eauto.
      * rewrite lookup_insert_ne by exact Hne. exact H.
Qed.

(** X28: for a listed event with an id, the events route reports a task
    exactly when some task row of the query holds that event id: the event
    is then flagged as coming from the app and carries the id and the status
    of such a row; when no row holds the id, the event carries no task, and
    it is flagged only if its description contains the marker. *)
Theorem listed_event_carries_linked_task (rows : list TaskRow) (event : ListedEvent)
    (k : string) :
  event.(le_id) = Some k ->
  let shown := formatEvent (taskMap rows) event in
  ((exists t, t ∈ rows /\ t.(google_calendar_event_id) = Some k) ->
   shown.(isFromApp) = true
   /\ exists t, t ∈ rows /\ t.(google_calendar_event_id) = Some k
                /\ shown.(fe_taskId)
                   = (if JS.truthy_string t.(id) then Some t.(id) else None)
                /\ shown.(fe_taskStatus)
                   = (if JS.truthy_string t.(status) then Some t.(status) else None))
  /\ ((forall t, t ∈ rows -> t.(google_calendar_event_id) <> Some k) ->
      shown.(fe_taskId) = None /\ shown.(fe_taskStatus) = None
      /\ shown.(isFromApp) = match event.(le_description) with
                             | Some d => string_includes app_marker d
                             | None => false
                             end).
Proof.
  intros Hid. cbv zeta. unfold formatEvent. rewrite Hid. simpl.
  destruct (taskMap rows !! k) as [t|] eqn:Hlook.
  - destruct (taskMap_from_rows rows ∅ k t Hlook) as [[Hin Hk]|Hempty];
      [|rewrite lookup_empty in Hempty; discriminate].
    split.
    + intros _. split; [apply orb_true_r|]. exists t. auto.
    + intros Hnone. exfalso. exact (Hnone t Hin Hk).
  - split.
    + intros Hex. exfalso.
      destruct (taskMap_holds_rows rows ∅ k (or_introl Hex)) as [t Ht].
      unfold taskMap in Hlook. rewrite Hlook in Ht. discriminate.
    + intros _. rewrite orb_false_r. auto.
Qed.

Lemma listed_event_carries_linked_task_witness :
  let rows := [Scenario.linked "e1"] in
  let event := listed "e1" Scenario.create_body in
  let shown := formatEvent (taskMap rows) event in
  ((exists t, t ∈ rows /\ t.(google_calendar_event_id) = Some "e1") ->
   shown.(isFromApp) = true
   /\ exists t, t ∈ rows /\ t.(google_calendar_event_id) = Some "e1"
                /\ shown.(fe_taskId)
                   = (if JS.truthy_string t.(id) then Some t.(id) else None)
                /\ shown.(fe_taskStatus)
                   = (if JS.truthy_string t.(status) then Some t.(status) else None))
  /\ ((forall t, t ∈ rows -> t.(google_calendar_event_id) <> Some "e1") ->
      shown.(fe_taskId) = None /\ shown.(fe_taskStatus) = None
      /\ shown.(isFromApp) = match event.(le_description) with
                             | Some d => string_includes app_marker d
                             | None => false
                             end).
Proof.
  apply (listed_event_carries_linked_task [Scenario.linked "e1"]
           (listed "e1" Scenario.create_body) "e1").
  reflexivity.
Defined.

(** ** Unsync, then sync *)

(** X21: after an authenticated unsync request for a task, a sync request
    for the same task can neither update nor delete an event: it answers
    [created] or an error, and the only calendar call it can make is a
    create. *)
Theorem sync_after_unsync_creates (env1 env2 : Env) (rt1 rt2 : Runtime)
    (request : Request) (w : World) (user tid : string) (body : Body) :
  authenticated env1 request user ->
  request.(query_taskId) = Some tid ->
  JS.truthy_string tid = true ->
  request.(json) = Some body ->
  body.(taskId) = Some tid ->
  let w1 := snd (unsync env1 rt1 request w) in
  let r2 := fst (sync env2 rt2 request w1) in
  let w2 := snd (sync env2 rt2 request w1) in
  ((exists eid, r2 = Created eid) \/ is_error r2 = true)
  /\ (calls w2 = calls w1 \/ exists ev, calls w2 = (calls w1 ++ [CallInsert ev])%list).
Proof.
  intros Hauth Hq Htruthy Hjson Htid. cbv zeta.
  destruct (unsync_clears env1 rt1 request w user tid Hauth Hq Htruthy) as (_ & Hnone & _).
  set (w1 := snd (unsync env1 rt1 request w)) in *.
  pose proof (sync_outcome env2 rt2 request w1) as H.
  rewrite Hjson in H. cbn [mbind option_bind] in H. rewrite Htid in H.
  destruct (fst (sync env2 rt2 request w1)) as [| | | | |eid|eid|d| |]; simpl in H |- *;
    try contradiction;
    try (destruct H as (_ & _ & _ & Hc); auto).
  - destruct H as (u & tid' & eid & Hn & Hid & _). injection Hn as <-.
    rewrite Hnone in Hid. discriminate.
  - destruct H as (u & tid' & ev & old & Hn & Hid & _). injection Hn as <-.
    rewrite Hnone in Hid. discriminate.
  - destruct H as (u & tid' & ev & _ & _ & _ & _ & _ & _ & _ & Hc).
    split; [left; eauto|right; eauto].
  - destruct H as (_ & _ & [Hc|(c & Hc & [Hins|(tid' & Hn & Hid)])]); [auto| |].
    + split; [auto|]. right. destruct c as [ev|eid' ev|eid']; try discriminate. eauto.
    + injection Hn as <-. rewrite Hnone in Hid. discriminate.
Qed.

Lemma sync_after_unsync_creates_witness :
  let w1 := snd (unsync (Scenario.env "e1") Scenario.early Scenario.request Cases.synced) in
  let r2 := fst (sync (Scenario.env "e2") Scenario.late Scenario.request w1) in
  let w2 := snd (sync (Scenario.env "e2") Scenario.late Scenario.request w1) in
  ((exists eid, r2 = Created eid) \/ is_error r2 = true)
  /\ (calls w2 = calls w1 \/ exists ev, calls w2 = (calls w1 ++ [CallInsert ev])%list).
Proof.
  apply (sync_after_unsync_creates (Scenario.env "e1") (Scenario.env "e2")
           Scenario.early Scenario.late Scenario.request Cases.synced "u1" "t1"
           {| taskId := Some "t1"; action := None |}).
  - split; reflexivity.
  - reflexivity.
  - reflexivity.
  - reflexivity.
  - reflexivity.
Defined.
